(** * Appointments API: free-slot computation and booking creation

    A shallow embedding of [main.py] (handlers [get_free_slots] and
    [create_booking], helpers [to_object_id] and [parse_time]) and of the
    documents declared in [schemas.py].

    Conventions of the embedding:
    - a Python [str] is a [string]; [<], [<=], [>], [>=] on [str] are the
      lexicographic comparisons of [String.compare];
    - a [date] is its proleptic Gregorian ordinal (as [date.toordinal()]);
      a [datetime] whose seconds are zero is the number of minutes since
      midnight of ordinal 0, so that [datetime.combine(day, t)] is
      [day * 1440 + t] and adding [timedelta(minutes=n)] adds [n];
    - a handler is a computation over the document store that may raise;
      the queries it issues are recorded in a log;
    - the [while] loop runs on fuel, each run of the loop on the whole of
      it: [OutOfFuel] stands for a loop that does not leave;
    - texts are ASCII, and dates stay within the years [datetime] has. *)

From Stdlib Require Import ZArith List Bool Lia Ascii String.
From stdpp Require Import base option list gmap strings.

Local Open Scope Z_scope.

(** ** Python [str] comparisons *)

Definition str_lt (a b : string) : bool :=
  match String.compare a b with Lt => true | _ => false end.
Definition str_le (a b : string) : bool :=
  match String.compare a b with Gt => false | _ => true end.
Definition str_gt (a b : string) : bool :=
  match String.compare a b with Gt => true | _ => false end.
Definition str_ge (a b : string) : bool :=
  match String.compare a b with Lt => false | _ => true end.

(** ** [datetime]: formatting and parsing of times *)

Definition digit_char (n : Z) : ascii :=
  Ascii.ascii_of_nat (48 + Z.to_nat n).

(** [%02d] *)
Definition two_digits (n : Z) : string :=
  String (digit_char (n / 10)) (String (digit_char (n mod 10)) EmptyString).

(** [%04d] *)
Definition four_digits (n : Z) : string :=
  String (digit_char (n / 1000))
    (String (digit_char (n / 100 mod 10))
       (String (digit_char (n / 10 mod 10))
          (String (digit_char (n mod 10)) EmptyString))).

Definition minutes_per_day : Z := 1440.

(** [datetime.combine(day, t)] for a time [t] given in minutes. *)
Definition combine (day : Z) (t : Z) : Z := day * minutes_per_day + t.

(** [dt.strftime("%H:%M")] *)
Definition strftime_HM (dt : Z) : string :=
  let tod := dt mod minutes_per_day in
  two_digits (tod / 60) +:+ ":" +:+ two_digits (tod mod 60).

Definition digit_val (c : ascii) : option Z :=
  let n := Z.of_nat (Ascii.nat_of_ascii c) in
  if (48 <=? n) && (n <=? 57) then Some (n - 48) else None.

(** Minute field of [strptime], regex [[0-5]\d|\d]; the match must reach
    the end of the text ("unconverted data remains" otherwise). The first
    alternative that matches is final: nothing follows it in the pattern. *)
Definition parse_minute (s : string) : option Z :=
  match s with
  | String c1 rest =>
      match digit_val c1 with
      | Some d1 =>
          match rest with
          | EmptyString => Some d1
          | String c2 rest' =>
              match digit_val c2 with
              | Some d2 =>
                  if d1 <=? 5 then
                    match rest' with
                    | EmptyString => Some (d1 * 10 + d2)
                    | _ => None
                    end
                  else None
              | None => None
              end
          end
      | None => None
      end
  | EmptyString => None
  end.

(** What follows the hour field: [":"] and the minute field. *)
Definition parse_colon_minute (s : string) : option Z :=
  match s with
  | String ":" rest => parse_minute rest
  | _ => None
  end.

(** [datetime.strptime(hhmm, "%H:%M").time()], in minutes since midnight;
    [None] is [ValueError]. The hour field is the regex
    [2[0-3]|[0-1]\d|\d]: a two-digit hour is tried first, a one-digit hour
    when the two-digit reading cannot be completed. *)
Definition strptime_HM (hhmm : string) : option Z :=
  match hhmm with
  | String c1 rest =>
      match digit_val c1 with
      | Some d1 =>
          let one_digit := m ← parse_colon_minute rest; Some (d1 * 60 + m) in
          match rest with
          | String c2 rest' =>
              match digit_val c2 with
              | Some d2 =>
                  if (d1 * 10 + d2 <=? 23) then
                    match parse_colon_minute rest' with
                    | Some m => Some ((d1 * 10 + d2) * 60 + m)
                    | None => one_digit
                    end
                  else one_digit
              | None => one_digit
              end
          | EmptyString => None
          end
      | None => None
      end
  | EmptyString => None
  end.

(** ** [date]: weekday and ISO format *)

(** [date.weekday()]: 0 is Monday. *)
Definition weekday (day : Z) : Z := (day + 6) mod 7.

Definition days_before_month (month : Z) : Z :=
  nth (Z.to_nat month) [0; 0; 31; 59; 90; 120; 151; 181; 212; 243; 273; 304; 334] 0.

Definition days_in_month (month : Z) : Z :=
  nth (Z.to_nat month) [0; 31; 28; 31; 30; 31; 30; 31; 31; 30; 31; 30; 31] 0.

(** Year, month and day of an ordinal (the standard library's
    ordinal-to-date conversion over 400, 100, 4 and 1 year cycles). *)
Definition ord2ymd (ordinal : Z) : Z * Z * Z :=
  let n := ordinal - 1 in
  let n400 := n / 146097 in
  let n := n mod 146097 in
  let n100 := n / 36524 in
  let n := n mod 36524 in
  let n4 := n / 1461 in
  let n := n mod 1461 in
  let n1 := n / 365 in
  let n := n mod 365 in
  let year := n400 * 400 + 1 + n100 * 100 + n4 * 4 + n1 in
  if (n1 =? 4) || (n100 =? 4) then (year - 1, 12, 31)
  else
    let leapyear := (n1 =? 3) && (negb (n4 =? 24) || (n100 =? 3)) in
    let month := Z.shiftr (n + 50) 5 in
    let preceding :=
      days_before_month month + (if (2 <? month) && leapyear then 1 else 0) in
    if n <? preceding then
      let month' := month - 1 in
      let preceding' :=
        preceding - (days_in_month month'
                     + (if (month' =? 2) && leapyear then 1 else 0)) in
      (year, month', n - preceding' + 1)
    else (year, month, n - preceding + 1).

(** [date.isoformat()] *)
Definition isoformat (day : Z) : string :=
  let '(y, m, d) := ord2ymd day in
  four_digits y +:+ "-" +:+ two_digits m +:+ "-" +:+ two_digits d.

(** Ordinal of 1900-01-01, the date [strptime] gives to a bare time. *)
Definition strptime_default_day : Z := 693596.

(** [dt.time()]: the time of day of a datetime, in minutes. *)
Definition time_of (dt : Z) : Z := dt mod minutes_per_day.

(** ** Outcomes of a computation *)

Inductive exn : Type :=
| HTTPException (status_code : Z) (detail : string)
| ValueError
| TypeError.

Inductive outcome (A : Type) : Type :=
| Return (a : A)
| Raise (e : exn)
| OutOfFuel.
Arguments Return {A} a.
Arguments Raise {A} e.
Arguments OutOfFuel {A}.

#[global] Instance outcome_ret : MRet outcome := fun A a => Return a.
#[global] Instance outcome_bind : MBind outcome := fun A B k m =>
  match m with
  | Return a => k a
  | Raise e => Raise e
  | OutOfFuel => OutOfFuel
  end.

(** A [for] loop over a list whose body updates the loop's variables [S]. *)
Fixpoint for_each {A S : Type} (l : list A) (body : A -> S -> outcome S)
    (s : S) : outcome S :=
  match l with
  | [] => Return s
  | x :: l' => s' ← body x s; for_each l' body s'
  end.

(** [range(n)] *)
Definition range (n : Z) : list Z := map Z.of_nat (seq 0 (Z.to_nat n)).

(** ** Identifiers *)

(** An [ObjectId] is the twelve bytes its text denotes. *)
Definition ObjectId : Type := list Z.

Definition hex_val (c : ascii) : option Z :=
  let n := Z.of_nat (Ascii.nat_of_ascii c) in
  if (48 <=? n) && (n <=? 57) then Some (n - 48)
  else if (97 <=? n) && (n <=? 102) then Some (n - 87)
  else if (65 <=? n) && (n <=? 70) then Some (n - 55)
  else None.

Fixpoint fromhex (s : string) : option (list Z) :=
  match s with
  | EmptyString => Some []
  | String c1 (String c2 rest) =>
      h ← hex_val c1; l ← hex_val c2; bs ← fromhex rest; Some (h * 16 + l :: bs)
  | String _ EmptyString => None
  end.

(** [ObjectId(id_str)] for a [str]: the 24-hex-character form of the
    identifier, [None] when the constructor raises. The constructor belongs
    to the storage driver; it is modelled on the identifier form the
    interface description gives. *)
Definition ObjectId_of_str (id_str : string) : option ObjectId :=
  if Nat.eqb (String.length id_str) 24 then fromhex id_str else None.

(** Lines 39-43: whatever the constructor raises becomes a 400. *)
Definition to_object_id (id_str : string) : outcome ObjectId :=
  match ObjectId_of_str id_str with
  | Some oid => Return oid
  | None => Raise (HTTPException 400 "Invalid id")
  end.

(** Lines 46-47: the datetime [strptime] builds, on its default day. *)
Definition parse_time (hhmm : string) : outcome Z :=
  match strptime_HM hhmm with
  | Some t => Return (combine strptime_default_day t)
  | None => Raise ValueError
  end.

(** ** Documents ([schemas.py]) *)

Module Service.
(** [price], a float, is read by no handler and is left out. *)
Record t : Type := mk {
  _id : ObjectId;
  name : option string;
  description : option string;
  duration_minutes : option Z;
  color : option string;
  slug : option string
}.
End Service.

Module Availability.
Record t : Type := mk {
  service_id : string;
  consultant : option string;
  weekday : option Z;
  date : option string;
  start_time : string;
  end_time : string;
  timezone : option string
}.
End Availability.

Inductive Status : Type := pending | confirmed | cancelled.

Module Booking.
Record t : Type := mk {
  service_id : string;
  service_name : option string;
  customer_name : string;
  email : string;
  date : string;
  start_time : string;
  end_time : string;
  notes : option string;
  status : Status
}.

Definition with_service_name (v : option string) (b : t) : t :=
  mk (service_id b) v (customer_name b) (email b) (date b)
     (start_time b) (end_time b) (notes b) (status b).

Definition with_status (v : Status) (b : t) : t :=
  mk (service_id b) (service_name b) (customer_name b) (email b) (date b)
     (start_time b) (end_time b) (notes b) v.
End Booking.

Module FreeSlot.
Record t : Type := mk {
  date : string;
  start_time : string;
  end_time : string
}.
End FreeSlot.

(** ** The document store *)

(** The three collections, each in the order its documents are retrieved;
    a stored booking carries the identifier the store gave it. *)
Record Store : Type := mkStore {
  service : list Service.t;
  availability : list Availability.t;
  booking : list (string * Booking.t);
  next_id : Z
}.

Inductive Query : Type :=
| FindOneService (oid : ObjectId)
| FindAvailability (service_id : string)
| FindBooking (service_id : string)
| FindOneBooking (service_id date before_end after_start : string)
| InsertBooking (doc : Booking.t).

(** [db] is the module's store handle, [None] when not configured. *)
Record World : Type := mkWorld {
  db : option Store;
  log : list Query
}.

Definition M (A : Type) : Type := World -> outcome A * World.

#[global] Instance M_ret : MRet M := fun A a w => (Return a, w).
#[global] Instance M_bind : MBind M := fun A B k m w =>
  match m w with
  | (Return a, w') => k a w'
  | (Raise e, w') => (Raise e, w')
  | (OutOfFuel, w') => (OutOfFuel, w')
  end.

Definition raise {A : Type} (e : exn) : M A := fun w => (Raise e, w).
Definition lift {A : Type} (o : outcome A) : M A := fun w => (o, w).
Definition get_db : M (option Store) := fun w => (Return (db w), w).

(** A read of the store: recorded in the log; subscripting an absent
    handle is a [TypeError]. *)
Definition query {A : Type} (q : Query) (f : Store -> A) : M A := fun w =>
  match db w with
  | Some st => (Return (f st), mkWorld (db w) (log w ++ [q]))
  | None => (Raise TypeError, w)
  end.

(** [{"_id": oid}] on the service collection: the first match. *)
Definition service_by_id (st : Store) (oid : ObjectId) : option Service.t :=
  List.find (fun s => bool_decide (Service._id s = oid)) (service st).

(** [{"service_id": service_id}] on the availability collection. *)
Definition rules_of (st : Store) (service_id : string) : list Availability.t :=
  List.filter (fun r => bool_decide (Availability.service_id r = service_id))
    (availability st).

(** [{"service_id": service_id}] on the booking collection. *)
Definition bookings_of (st : Store) (service_id : string) : list Booking.t :=
  List.filter (fun b => bool_decide (Booking.service_id b = service_id))
    (map snd (booking st)).

(** The filter of the conflict query of [create_booking]: equality on
    [service_id] and [date], [start_time] [$lt] the payload's end and
    [end_time] [$gt] the payload's start. *)
Definition conflict_filter (service_id date before_end after_start : string)
    (b : Booking.t) : bool :=
  bool_decide (Booking.service_id b = service_id)
  && bool_decide (Booking.date b = date)
  && (str_lt (Booking.start_time b) before_end
      && str_gt (Booking.end_time b) after_start).

Definition conflict_of (st : Store)
    (service_id date before_end after_start : string) : option Booking.t :=
  List.find (conflict_filter service_id date before_end after_start)
    (map snd (booking st)).

(** [db["service"].find_one({"_id": oid})] *)
Definition find_one_service (oid : ObjectId) : M (option Service.t) :=
  query (FindOneService oid) (fun st => service_by_id st oid).

(** [list(db["availability"].find({"service_id": service_id}))] *)
Definition find_availability (service_id : string) : M (list Availability.t) :=
  query (FindAvailability service_id) (fun st => rules_of st service_id).

(** [list(db["booking"].find({"service_id": service_id}))] *)
Definition find_booking (service_id : string) : M (list Booking.t) :=
  query (FindBooking service_id) (fun st => bookings_of st service_id).

(** [db["booking"].find_one({...})] of [create_booking]. *)
Definition find_one_booking (service_id date before_end after_start : string)
    : M (option Booking.t) :=
  query (FindOneBooking service_id date before_end after_start)
    (fun st => conflict_of st service_id date before_end after_start).

(** The text of a generated identifier: [k] hexadecimal digits of [n]. *)
Definition hex_char (n : Z) : ascii :=
  if n <? 10 then Ascii.ascii_of_nat (48 + Z.to_nat n)
  else Ascii.ascii_of_nat (87 + Z.to_nat n).

Fixpoint hex_digits (k : nat) (n : Z) (acc : string) : string :=
  match k with
  | O => acc
  | S k' => hex_digits k' (n / 16) (String (hex_char (n mod 16)) acc)
  end.

(** Modelled from the spec: [create_document] of the [database] module,
    which the sources import but do not contain. The storage interface is
    "insert-one returning a generated id": the document is added to the
    collection and the identifier the store generated for it is returned, as
    text. The generator is a counter of the store, written as 24 hex
    characters. *)
Definition create_document_booking (data : Booking.t) : M string := fun w =>
  match db w with
  | Some st =>
      let inserted_id := hex_digits 24 (next_id st) EmptyString in
      (Return inserted_id,
       mkWorld
         (Some (mkStore (service st) (availability st)
                  (booking st ++ [(inserted_id, data)]) (next_id st + 1)))
         (log w ++ [InsertBooking data]))
  | None => (Raise TypeError, w)
  end.

(** ** [get_free_slots] *)

(** [booked.setdefault(key, []).append(v)] *)
Definition setdefault_append (key : string) (v : string * string)
    (booked : gmap string (list (string * string)))
    : gmap string (list (string * string)) :=
  <[key := default [] (booked !! key) ++ [v]]> booked.

(** Lines 109-112: the booked ranges of each date. *)
Definition build_booked (bookings : list Booking.t)
    : gmap string (list (string * string)) :=
  foldl (fun booked b =>
           setdefault_append (Booking.date b)
             (Booking.start_time b, Booking.end_time b) booked)
        ∅ bookings.

(** Line 134, the test on one booked range:
    [not (slot_end <= b_start or slot_start >= b_end)]. *)
Definition intervals_overlap (a_start a_end b_start b_end : string) : bool :=
  negb (str_le a_end b_start || str_ge a_start b_end).

(** Line 134: [any(... for (b_start, b_end) in booked.get(day_str, []))]. *)
Definition overlaps_any (slot_start slot_end : string)
    (ranges : list (string * string)) : bool :=
  existsb (fun '(b_start, b_end) =>
             intervals_overlap slot_start slot_end b_start b_end)
          ranges.

(** Lines 130-137: the [while] loop over a rule's window; its variables are
    [cursor] and [out]. *)
Fixpoint while_slots (fuel : nat)
    (booked : gmap string (list (string * string))) (day_str : string)
    (dur end_dt cursor : Z) (out : list FreeSlot.t)
    : outcome (list FreeSlot.t) :=
  if cursor + dur <=? end_dt then
    match fuel with
    | O => OutOfFuel
    | S fuel' =>
        let slot_start := strftime_HM cursor in
        let slot_end := strftime_HM (cursor + dur) in
        let overlaps :=
          overlaps_any slot_start slot_end (default [] (booked !! day_str)) in
        let out :=
          if negb overlaps
          then out ++ [FreeSlot.mk day_str slot_start slot_end]
          else out in
        while_slots fuel' booked day_str dur end_dt (cursor + dur) out
    end
  else Return out.

(** Lines 123-137: the body of [for r in day_rules]. *)
Definition rule_body (fuel : nat) (service : Service.t)
    (booked : gmap string (list (string * string))) (day : Z)
    (day_str : string) (r : Availability.t) (out : list FreeSlot.t)
    : outcome (list FreeSlot.t) :=
  start_dt ← parse_time (Availability.start_time r);
  let start := time_of start_dt in
  end_parsed ← parse_time (Availability.end_time r);
  let end_ := time_of end_parsed in
  let dur := default 30 (Service.duration_minutes service) in
  let cursor := combine day start in
  let end_dt := combine day end_ in
  while_slots fuel booked day_str dur end_dt cursor out.

(** Line 121: [(r.get("weekday") == weekday) or (r.get("date") == day_str)]. *)
Definition rule_matches (weekday : Z) (day_str : string)
    (r : Availability.t) : bool :=
  bool_decide (Availability.weekday r = Some weekday)
  || bool_decide (Availability.date r = Some day_str).

(** Lines 117-137: the body of [for i in range(days)]. *)
Definition day_body (fuel : nat) (service : Service.t)
    (rules : list Availability.t)
    (booked : gmap string (list (string * string))) (today : Z)
    (i : Z) (out : list FreeSlot.t) : outcome (list FreeSlot.t) :=
  let day := today + i in
  let day_str := isoformat day in
  let weekday := weekday day in
  let day_rules := List.filter (rule_matches weekday day_str) rules in
  for_each day_rules (rule_body fuel service booked day day_str) out.

(** Lines 108-137: from the retrieved documents to the list [out]. *)
Definition collect_slots (fuel : nat) (service : Service.t)
    (rules : list Availability.t) (bookings : list Booking.t)
    (today : Z) (days : Z) : outcome (list FreeSlot.t) :=
  let booked := build_booked bookings in
  for_each (range days) (day_body fuel service rules booked today) [].

(** The handler. [today] is the date [datetime.utcnow().date()] reads. *)
Definition get_free_slots (fuel : nat) (today : Z) (service_id : string)
    (days : Z) : M (list FreeSlot.t) :=
  d ← get_db;
  match d with
  | None => raise (HTTPException 500 "Database not configured")
  | Some _ =>
      oid ← lift (to_object_id service_id);
      found ← find_one_service oid;
      match found with
      | None => raise (HTTPException 404 "Service not found")
      | Some service =>
          rules ← find_availability service_id;
          bookings ← find_booking service_id;
          out ← lift (collect_slots fuel service rules bookings today days);
          mret (take 200 out)
      end
  end.

(** ** [create_booking] *)

Record Created : Type := mkCreated {
  id : string;
  status : string
}.

Definition create_booking (payload : Booking.t) : M Created :=
  d ← get_db;
  match d with
  | None => raise (HTTPException 500 "Database not configured")
  | Some _ =>
      oid ← lift (to_object_id (Booking.service_id payload));
      found ← find_one_service oid;
      match found with
      | None => raise (HTTPException 404 "Service not found")
      | Some service =>
          conflict ← find_one_booking (Booking.service_id payload)
                       (Booking.date payload) (Booking.end_time payload)
                       (Booking.start_time payload);
          match conflict with
          | Some _ => raise (HTTPException 409 "Time slot already booked")
          | None =>
              let data := payload in
              let data := Booking.with_service_name (Service.name service) data in
              inserted_id ← create_document_booking data;
              mret (mkCreated inserted_id "ok")
          end
      end
  end.

(** ** Stores that differ in the status of bookings *)

Definition restatus_booking (f : Booking.t -> Status) (b : Booking.t)
    : Booking.t :=
  Booking.with_status (f b) b.

(** The store in which every booking [b] has status [f b]. *)
Definition restatus (f : Booking.t -> Status) (st : Store) : Store :=
  mkStore (service st) (availability st)
    (map (fun ib => (ib.1, restatus_booking f ib.2)) (booking st))
    (next_id st).

Definition restatus_world (f : Booking.t -> Status) (w : World) : World :=
  mkWorld (restatus f <$> db w) (log w).

(** ** The generation order, as the specification words it

    The definitions of this part follow the specification's description of
    the slot sequence; the properties below compare them with the loops. *)

(** [n] cursor positions from [cursor], [dur] apart. *)
Fixpoint cursors (n : nat) (cursor dur : Z) : list Z :=
  match n with
  | O => []
  | S n' => cursor :: cursors n' (cursor + dur) dur
  end.

(** The slot of length [dur] that starts at [cursor]. *)
Definition slot_at (day_str : string) (dur cursor : Z) : FreeSlot.t :=
  FreeSlot.mk day_str (strftime_HM cursor) (strftime_HM (cursor + dur)).

(** floor((end - start) / duration), as a count. *)
Definition slot_count (start end_ dur : Z) : nat :=
  Z.to_nat ((end_ - start) / dur).

(** A slot survives when it overlaps no booked range. *)
Definition is_free (ranges : list (string * string)) (slot : FreeSlot.t)
    : bool :=
  negb (overlaps_any (FreeSlot.start_time slot) (FreeSlot.end_time slot) ranges).

(** The ranges booked on a date, in retrieval order. *)
Definition booked_on (bookings : list Booking.t) (day_str : string)
    : list (string * string) :=
  map (fun b => (Booking.start_time b, Booking.end_time b))
    (List.filter (fun b => bool_decide (Booking.date b = day_str)) bookings).

(** The window of a rule, in minutes of the day. *)
Definition window_of (r : Availability.t) : Z * Z :=
  (default 0 (strptime_HM (Availability.start_time r)),
   default 0 (strptime_HM (Availability.end_time r))).

(** The candidate slots of a rule on a day, before bookings are excluded. *)
Definition window_candidates (day dur : Z) (r : Availability.t)
    : list FreeSlot.t :=
  map (slot_at (isoformat day) dur)
    (cursors (slot_count (window_of r).1 (window_of r).2 dur)
       (combine day (window_of r).1) dur).

Definition rule_free_slots (bookings : list Booking.t) (dur day : Z)
    (r : Availability.t) : list FreeSlot.t :=
  List.filter (is_free (booked_on bookings (isoformat day)))
    (window_candidates day dur r).

Definition day_free_slots (rules : list Availability.t)
    (bookings : list Booking.t) (dur day : Z) : list FreeSlot.t :=
  flat_map (rule_free_slots bookings dur day)
    (List.filter (rule_matches (weekday day) (isoformat day)) rules).

Definition horizon_free_slots (rules : list Availability.t)
    (bookings : list Booking.t) (dur today days : Z) : list FreeSlot.t :=
  flat_map (fun i => day_free_slots rules bookings dur (today + i))
    (range days).


(** The times of a rule are texts [strptime] accepts. *)
Definition rule_parses (r : Availability.t) : Prop :=
  is_Some (strptime_HM (Availability.start_time r))
  /\ is_Some (strptime_HM (Availability.end_time r)).

(** ** Sample documents

    The service and the weekly rule the start-up seeding writes, a rule for
    one date, and bookings on Monday 2024-01-08 (ordinal 738893). *)

Definition sample_id : string := "65a1f0c2b7e4d90123456789".

Definition sample_oid : ObjectId :=
  [101; 161; 240; 194; 183; 228; 217; 1; 35; 69; 103; 137].

Definition sample_service : Service.t :=
  Service.mk sample_oid (Some "Consultation Call"%string)
    (Some "30-min strategy session"%string) (Some 30) (Some "#22c55e"%string)
    (Some "consultation-call"%string).

Definition monday_rule : Availability.t :=
  Availability.mk sample_id (Some "You"%string) (Some 0) None "09:00" "10:00"
    (Some "UTC"%string).



Definition sample_booking (start_time end_time : string) (status : Status)
    : Booking.t :=
  Booking.mk sample_id (Some "Consultation Call"%string) "Ann"
    "ann@example.org" "2024-01-08" start_time end_time None status.

Definition sample_payload (start_time end_time : string) : Booking.t :=
  Booking.mk sample_id (Some "Free session"%string) "Bob" "bob@example.org"
    "2024-01-08" start_time end_time None confirmed.

Definition sample_day : Z := 738893.

Definition sample_store (rules : list Availability.t)
    (bookings : list (string * Booking.t)) : Store :=
  mkStore [sample_service] rules bookings 1.





(** One booking, 10:00-10:30 on 2024-01-08, whatever its status. *)
Definition booked_store (status : Status) : Store :=
  sample_store [monday_rule]
    [("000000000000000000000000"%string,
      sample_booking "10:00" "10:30" status)].

Definition booked_world (status : Status) : World :=
  mkWorld (Some (booked_store status)) [].

(** ** Identifiers as text, and the time pattern of the schemas *)

(** [str(oid)]: two lower-case hexadecimal characters for each byte. *)
Fixpoint ObjectId_str (oid : ObjectId) : string :=
  match oid with
  | [] => EmptyString
  | b :: rest =>
      String (hex_char (b / 16))
        (String (hex_char (b mod 16)) (ObjectId_str rest))
  end.


(** The pattern [^\d{2}:\d{2}$] of the time fields of [schemas.py]: the two
    numbers written, [None] when the text does not match. *)
Definition time_pattern (s : string) : option (Z * Z) :=
  match s with
  | String h1 (String h2 (String ":" (String m1 (String m2 EmptyString)))) =>
      a ← digit_val h1; b ← digit_val h2;
      c ← digit_val m1; d ← digit_val m2;
      Some (a * 10 + b, c * 10 + d)
  | _ => None
  end.

(** ** [seed_data], [list_services] and [list_bookings]

    These handlers are given by explicit state passing over the store
    handle; the log of queries has no part in them. *)

(** The bytes of a counter, most significant first. *)
Fixpoint counter_bytes (k : nat) (n : Z) (acc : list Z) : list Z :=
  match k with
  | O => acc
  | S k' => counter_bytes k' (n / 256) (n mod 256 :: acc)
  end.

(** Modelled from the spec: [create_document] of the [database] module, on
    the service collection ("insert-one returning a generated id"). The
    store gives the document its [_id], here the twelve bytes of the
    store's counter, appends it and returns the identifier as text; [doc]
    is the document without its identifier. *)
Definition create_document_service (doc : ObjectId -> Service.t)
    (st : Store) : string * Store :=
  let oid := counter_bytes 12 (next_id st) [] in
  (ObjectId_str oid,
   mkStore (service st ++ [doc oid]) (availability st) (booking st)
     (next_id st + 1)).

(** Modelled from the spec: [create_document] of the [database] module, on
    the availability collection. *)
Definition create_document_availability (data : Availability.t)
    (st : Store) : string * Store :=
  (ObjectId_str (counter_bytes 12 (next_id st) []),
   mkStore (service st) (availability st ++ [data]) (booking st)
     (next_id st + 1)).

(** Lines 56-63: the seeded service ([price] is left out of the record). *)
Definition seed_service (oid : ObjectId) : Service.t :=
  Service.mk oid (Some "Consultation Call"%string)
    (Some "30-min strategy session"%string) (Some 30) (Some "#22c55e"%string)
    (Some "consultation-call"%string).

(** Lines 68-74: the seeded rule of one weekday; the dictionary has no
    [consultant] and no [date]. *)
Definition seed_rule (service_id : string) (weekday : Z) : Availability.t :=
  Availability.mk service_id None (Some weekday) None "09:00" "17:00"
    (Some "UTC"%string).

(** Lines 51-74. [find_one({})] is the first document of the collection;
    subscripting its result when there is none is a [TypeError]. *)
Definition seed_data (db : option Store) : outcome (option Store) :=
  match db with
  | None => Return None
  | Some st =>
      let st :=
        if Nat.eqb (length (service st)) 0
        then (create_document_service seed_service st).2
        else st in
      if Nat.eqb (length (availability st)) 0 then
        match service st with
        | [] => Raise TypeError
        | service0 :: _ =>
            st' ← for_each (range 5)
                    (fun weekday st =>
                       Return (create_document_availability
                                 (seed_rule
                                    (ObjectId_str (Service._id service0))
                                    weekday)
                                 st).2)
                    st;
            Return (Some st')
        end
      else Return (Some st)
  end.



(** Modelled from the spec: [.sort("created_at", -1)]. The creation time is
    written by [create_document], which the sources do not contain; the
    listing is "newest-created first", and the collection is held in
    creation order, so the sorted listing is the retrieval order reversed. *)
Definition sort_created_at_desc (docs : list (string * Booking.t))
    : list (string * Booking.t) :=
  rev docs.

(** Lines 170-178. [service_id] is the optional query parameter; an empty
    text is falsy, as [None] is. A stored booking already carries its
    identifier as text. *)
Definition list_bookings (db : option Store) (service_id : option string)
    : outcome (list (string * Booking.t)) :=
  match db with
  | None => Raise (HTTPException 500 "Database not configured")
  | Some st =>
      let q :=
        match service_id with
        | Some s => if Nat.eqb (String.length s) 0 then None else Some s
        | None => None
        end in
      let found :=
        match q with
        | Some s =>
            List.filter (fun d => bool_decide (Booking.service_id d.2 = s))
              (booking st)
        | None => booking st
        end in
      Return (sort_created_at_desc found)
  end.

(** The payload that asks for a slot. *)
Definition payload_for (service_id customer_name email : string)
    (slot : FreeSlot.t) : Booking.t :=
  Booking.mk service_id None customer_name email (FreeSlot.date slot)
    (FreeSlot.start_time slot) (FreeSlot.end_time slot) None confirmed.

(** ** More sample documents *)






(** A Monday rule 09:00-10:00 and a cancelled booking 09:00-09:30. *)
Definition morning_store : Store :=
  sample_store [monday_rule]
    [("000000000000000000000000"%string,
      sample_booking "09:00" "09:30" cancelled)].

Definition morning_world : World := mkWorld (Some morning_store) [].


(** A store without any document. *)
Definition empty_store (n : Z) : Store := mkStore [] [] [] n.

(** * Properties *)

(** ** Comparisons of [str] *)

Lemma str_ge_le a b : str_ge a b = str_le b a.
Proof.
  unfold str_ge, str_le. rewrite (String.compare_antisym b a).
  by destruct (String.compare a b).
Qed.

Lemma str_gt_lt a b : str_gt a b = str_lt b a.
Proof.
  unfold str_gt, str_lt. rewrite (String.compare_antisym b a).
  by destruct (String.compare a b).
Qed.

Lemma str_lt_not_le a b : str_lt a b = negb (str_le b a).
Proof.
  unfold str_lt, str_le. rewrite (String.compare_antisym b a).
  by destruct (String.compare a b).
Qed.

Lemma string_compare_refl a : String.compare a a = Eq.
Proof.
  induction a as [|c a IH]; [done|]. cbn.
  assert (Ascii.compare c c = Eq) as ->; [|done].
  unfold Ascii.compare. apply N.compare_refl.
Qed.

Lemma str_le_refl a : str_le a a = true.
Proof. unfold str_le. by rewrite string_compare_refl. Qed.

Lemma str_lt_irrefl a : str_lt a a = false.
Proof. unfold str_lt. by rewrite string_compare_refl. Qed.

Lemma str_lt_le a b : str_lt a b = true -> str_le a b = true.
Proof. unfold str_lt, str_le. by destruct (String.compare a b). Qed.

(** ** Digits and times *)

Ltac break_match :=
  repeat match goal with
    | H : context [match ?x with _ => _ end] |- _ =>
        destruct x eqn:?; try discriminate H
    end.

Lemma digit_val_range c d : digit_val c = Some d -> 0 <= d <= 9.
Proof.
  unfold digit_val. intros H.
  destruct (_ && _) eqn:E; [|done].
  injection H as <-. apply andb_prop in E as [E1 E2]. lia.
Qed.

Lemma parse_minute_range s m : parse_minute s = Some m -> 0 <= m < 60.
Proof.
  unfold parse_minute. intros H. break_match;
    repeat match goal with
      | E : digit_val _ = Some _ |- _ => apply digit_val_range in E
      | E : (_ <=? _) = true |- _ => apply Z.leb_le in E
      end; injection H as <-; lia.
Qed.

Lemma parse_colon_minute_range s m :
  parse_colon_minute s = Some m -> 0 <= m < 60.
Proof.
  unfold parse_colon_minute. intros H. break_match.
  all: by eapply parse_minute_range.
Qed.

Lemma strptime_HM_range s t : strptime_HM s = Some t -> 0 <= t < 1440.
Proof.
  unfold strptime_HM. intros H.
  destruct s as [|c1 rest]; [done|].
  destruct (digit_val c1) as [d1|] eqn:E1; [|done].
  apply digit_val_range in E1.
  assert (forall r, (m ← parse_colon_minute r; Some (d1 * 60 + m)) = Some t ->
                    0 <= t < 1440) as Hone.
  { intros r Hr. destruct (parse_colon_minute r) as [m|] eqn:Em; [|done].
    apply parse_colon_minute_range in Em. cbn in Hr. injection Hr as <-. lia. }
  destruct rest as [|c2 rest']; [done|].
  destruct (digit_val c2) as [d2|] eqn:E2; [|by eapply Hone].
  destruct (d1 * 10 + d2 <=? 23) eqn:E23; [|by eapply Hone].
  destruct (parse_colon_minute rest') as [m|] eqn:Em; [|by eapply Hone].
  apply parse_colon_minute_range in Em. apply Z.leb_le in E23.
  apply digit_val_range in E2. injection H as <-. lia.
Qed.

Lemma time_of_combine day t : 0 <= t < 1440 -> time_of (combine day t) = t.
Proof.
  intros Ht. unfold time_of, combine, minutes_per_day.
  rewrite Z.add_comm, Z.mod_add by lia. by apply Z.mod_small.
Qed.

Lemma parse_time_Return hhmm dt :
  parse_time hhmm = Return dt <->
  exists t, strptime_HM hhmm = Some t /\ 0 <= t < 1440
            /\ dt = combine strptime_default_day t.
Proof.
  unfold parse_time. split.
  - destruct (strptime_HM hhmm) as [t|] eqn:E; [|done].
    intros [= <-]. exists t. split; [done|].
    split; [by eapply strptime_HM_range|done].
  - intros (t & -> & _ & ->). done.
Qed.

(** [lia] reads [/] and [mod] through their Euclidean equations. *)
Ltac Zify.zify_post_hook ::= Z.to_euclidean_division_equations.

Ltac digit_cases d :=
  let H := fresh in
  assert (d = 0 \/ d = 1 \/ d = 2 \/ d = 3 \/ d = 4 \/ d = 5 \/ d = 6
          \/ d = 7 \/ d = 8 \/ d = 9) as H by lia;
  repeat (destruct H as [H|H]; [subst d|]); [..|subst d].

Lemma digit_val_char d : 0 <= d <= 9 -> digit_val (digit_char d) = Some d.
Proof. intros Hd. digit_cases d; reflexivity. Qed.

Lemma ascii_compare_digit a b :
  0 <= a <= 9 -> 0 <= b <= 9 ->
  Ascii.compare (digit_char a) (digit_char b) = Z.compare a b.
Proof. intros Ha Hb. digit_cases a; digit_cases b; reflexivity. Qed.

Lemma append_String c s t : String c s +:+ t = String c (s +:+ t).
Proof. reflexivity. Qed.

Lemma append_nil_l t : "" +:+ t = t.
Proof. reflexivity. Qed.

Lemma two_digits_append x s :
  two_digits x +:+ s =
  String (digit_char (x / 10)) (String (digit_char (x mod 10)) s).
Proof. reflexivity. Qed.

(** Two-digit fields compare as the numbers they write. *)
Lemma two_digits_compare x y s t :
  0 <= x < 100 -> 0 <= y < 100 ->
  String.compare (two_digits x +:+ s) (two_digits y +:+ t) =
  match Z.compare x y with
  | Eq => String.compare s t
  | c => c
  end.
Proof.
  intros Hx Hy. rewrite !two_digits_append. cbn [String.compare].
  rewrite !ascii_compare_digit by lia.
  destruct (Z.compare_spec (x / 10) (y / 10)) as [E|E|E];
    destruct (Z.compare_spec (x mod 10) (y mod 10)) as [E'|E'|E'];
    destruct (Z.compare_spec x y) as [E''|E''|E'']; try done; exfalso; lia.
Qed.

Lemma strftime_HM_eq dt :
  strftime_HM dt =
  two_digits (dt mod 1440 / 60) +:+ ":" +:+ two_digits (dt mod 1440 mod 60).
Proof.
  unfold strftime_HM, minutes_per_day. cbv zeta.
  by replace (dt mod 1440 mod 60) with (dt mod 60) by lia.
Qed.

(** [strftime] texts of times of day compare as the times. *)
Lemma strftime_HM_compare a b :
  0 <= a < 1440 -> 0 <= b < 1440 ->
  String.compare (strftime_HM a) (strftime_HM b) = Z.compare a b.
Proof.
  intros Ha Hb. rewrite !strftime_HM_eq, !(Z.mod_small _ 1440) by lia.
  rewrite two_digits_compare by lia.
  rewrite !append_String, !append_nil_l.
  cbn [String.compare]. change (Ascii.compare ":" ":") with Eq.
  cbv iota.
  change (two_digits (a mod 60)) with (two_digits (a mod 60) +:+ "").
  change (two_digits (b mod 60)) with (two_digits (b mod 60) +:+ "").
  rewrite two_digits_compare by lia. cbn [String.compare].
  destruct (Z.compare_spec (a / 60) (b / 60)) as [E|E|E];
    destruct (Z.compare_spec (a mod 60) (b mod 60)) as [E'|E'|E'];
    destruct (Z.compare_spec a b) as [E''|E''|E'']; try done; exfalso; lia.
Qed.


Lemma strftime_HM_lt a b :
  0 <= a < 1440 -> 0 <= b < 1440 ->
  str_lt (strftime_HM a) (strftime_HM b) = (a <? b).
Proof.
  intros Ha Hb. unfold str_lt. rewrite strftime_HM_compare by done.
  unfold Z.ltb. by destruct (a ?= b).
Qed.

(** Parsing what [strftime] wrote gives the time of day back. *)
Lemma strptime_strftime dt : strptime_HM (strftime_HM dt) = Some (dt mod 1440).
Proof.
  rewrite strftime_HM_eq.
  assert (0 <= dt mod 1440 < 1440) as Ht by (apply Z.mod_pos_bound; lia).
  set (t := dt mod 1440) in *. clearbody t.
  rewrite two_digits_append, append_String, append_nil_l.
  unfold two_digits, strptime_HM.
  rewrite !digit_val_char by lia.
  assert ((t / 60 / 10 * 10 + t / 60 mod 10 <=? 23) = true) as -> by (apply Z.leb_le; lia).
  unfold parse_colon_minute, parse_minute.
  rewrite !digit_val_char by lia.
  assert ((t mod 60 / 10 <=? 5) = true) as -> by (apply Z.leb_le; lia).
  f_equal. lia.
Qed.

(** ** The booked ranges *)

Lemma build_booked_from (bookings : list Booking.t)
    (acc : gmap string (list (string * string))) (d : string) :
  default []
    (foldl (fun booked b =>
              setdefault_append (Booking.date b)
                (Booking.start_time b, Booking.end_time b) booked)
       acc bookings !! d)
  = default [] (acc !! d) ++ booked_on bookings d.
Proof.
  revert acc. induction bookings as [|b bs IH]; intros acc.
  - cbn. by rewrite app_nil_r.
  - cbn [foldl]. rewrite IH. unfold setdefault_append, booked_on. cbn [List.filter].
    destruct (decide (Booking.date b = d)) as [->|Hne].
    + rewrite lookup_insert_eq, bool_decide_true by done. cbn.
      by rewrite <- app_assoc.
    + rewrite lookup_insert_ne, bool_decide_false by done. done.
Qed.

(** The dictionary of lines 109-112 holds, for each date, the ranges of the
    bookings of that date in retrieval order; a date without bookings has
    no entry and reads as the empty list. *)
Lemma build_booked_lookup bookings d :
  default [] (build_booked bookings !! d) = booked_on bookings d.
Proof. unfold build_booked. by rewrite build_booked_from, lookup_empty. Qed.

(** ** The [while] loop *)

Lemma slot_count_step cursor end_dt dur :
  0 < dur -> cursor + dur <= end_dt ->
  slot_count cursor end_dt dur = S (slot_count (cursor + dur) end_dt dur).
Proof.
  intros Hd Hle. unfold slot_count.
  replace (end_dt - cursor) with ((end_dt - (cursor + dur)) + 1 * dur) by ring.
  rewrite Z_div_plus by lia.
  assert (0 <= (end_dt - (cursor + dur)) / dur) by (apply Z.div_pos; lia).
  rewrite Z2Nat.inj_add by lia. rewrite Nat.add_comm. done.
Qed.

Lemma slot_count_stop cursor end_dt dur :
  0 < dur -> end_dt < cursor + dur -> slot_count cursor end_dt dur = O.
Proof.
  intros Hd Hlt. unfold slot_count.
  assert ((end_dt - cursor) / dur < 1) by (apply Z.div_lt_upper_bound; lia).
  lia.
Qed.

(** With enough fuel the loop returns: it appends to [out], in cursor
    order, the candidate slots that overlap no range booked on the day. *)
Lemma while_slots_spec fuel booked day_str dur end_dt cursor out :
  0 < dur ->
  (slot_count cursor end_dt dur <= fuel)%nat ->
  while_slots fuel booked day_str dur end_dt cursor out =
  Return (out ++ List.filter (is_free (default [] (booked !! day_str)))
                   (map (slot_at day_str dur)
                      (cursors (slot_count cursor end_dt dur) cursor dur))).
Proof.
  intros Hd. revert cursor out.
  induction fuel as [|fuel IH]; intros cursor out Hfuel.
  - cbn [while_slots]. destruct (Z.leb_spec (cursor + dur) end_dt) as [Hle|Hgt].
    + rewrite slot_count_step in Hfuel by done. lia.
    + rewrite slot_count_stop by done. cbn. by rewrite app_nil_r.
  - cbn [while_slots]. destruct (Z.leb_spec (cursor + dur) end_dt) as [Hle|Hgt].
    + rewrite slot_count_step in * by done.
      rewrite IH by lia. cbn [cursors map List.filter].
      unfold is_free at 2, slot_at at 2. cbn [FreeSlot.start_time FreeSlot.end_time].
      destruct (negb _); [|done].
      by rewrite <- app_assoc.
    + rewrite slot_count_stop by done. cbn. by rewrite app_nil_r.
Qed.

(** A loop whose duration is not positive and whose test holds once never
    leaves: no amount of fuel gives a result. *)
Lemma while_slots_stuck fuel booked day_str dur end_dt cursor out :
  dur <= 0 -> cursor + dur <= end_dt ->
  while_slots fuel booked day_str dur end_dt cursor out = OutOfFuel.
Proof.
  intros Hd. revert cursor out.
  induction fuel as [|fuel IH]; intros cursor out Hle; cbn [while_slots];
    destruct (Z.leb_spec (cursor + dur) end_dt); try lia; [done|].
  apply IH. lia.
Qed.

Lemma cursors_length n cursor dur : length (cursors n cursor dur) = n.
Proof. revert cursor. induction n; intros; cbn; [done|]. by rewrite IHn. Qed.

Lemma cursors_lookup n cursor dur (k : nat) :
  (k < n)%nat -> cursors n cursor dur !! k = Some (cursor + Z.of_nat k * dur).
Proof.
  revert cursor k. induction n as [|n IH]; intros cursor k Hk; [lia|].
  destruct k as [|k]; cbn.
  - f_equal. lia.
  - rewrite IH by lia. f_equal. lia.
Qed.

(** ** The [for] loops *)

Lemma for_each_appends {A B : Type} (l : list A)
    (body : A -> list B -> outcome (list B)) (g : A -> list B) (out : list B) :
  (forall x out', In x l -> body x out' = Return (out' ++ g x)) ->
  for_each l body out = Return (out ++ flat_map g l).
Proof.
  revert out. induction l as [|x l IH]; intros out Hbody.
  - cbn. by rewrite app_nil_r.
  - cbn [for_each flat_map]. rewrite Hbody by (by left). cbn.
    rewrite IH by (intros; apply Hbody; by right).
    by rewrite <- app_assoc.
Qed.

Lemma slot_count_window day s e dur :
  slot_count (combine day s) (combine day e) dur = slot_count s e dur.
Proof. unfold slot_count, combine. do 2 f_equal. ring. Qed.

Lemma slot_count_bound s e dur :
  0 < dur -> 0 <= s < 1440 -> 0 <= e < 1440 -> (slot_count s e dur < 1440)%nat.
Proof.
  intros Hd Hs He. unfold slot_count.
  assert ((e - s) / dur < 1440) by (apply Z.div_lt_upper_bound; nia).
  lia.
Qed.

(** The body of the loop over the day's rules, for a rule whose times
    parse: the rule's surviving candidates are appended to [out]. *)
Lemma rule_body_spec fuel service bookings day r out :
  rule_parses r ->
  0 < default 30 (Service.duration_minutes service) ->
  (1440 <= fuel)%nat ->
  rule_body fuel service (build_booked bookings) day (isoformat day) r out =
  Return (out ++ rule_free_slots bookings
                   (default 30 (Service.duration_minutes service)) day r).
Proof.
  intros [[s Hs] [e He]] Hd Hfuel.
  unfold rule_body, parse_time, rule_free_slots, window_candidates, window_of.
  rewrite Hs, He. cbn [mbind outcome_bind default fst snd].
  pose proof (strptime_HM_range _ _ Hs) as Hsr.
  pose proof (strptime_HM_range _ _ He) as Her.
  rewrite !time_of_combine by done.
  rewrite while_slots_spec; [|done|].
  - by rewrite slot_count_window, build_booked_lookup.
  - rewrite slot_count_window.
    pose proof (slot_count_bound s e _ Hd Hsr Her). lia.
Qed.

Lemma day_body_spec fuel service rules bookings today i out :
  Forall rule_parses rules ->
  0 < default 30 (Service.duration_minutes service) ->
  (1440 <= fuel)%nat ->
  day_body fuel service rules (build_booked bookings) today i out =
  Return (out ++ day_free_slots rules bookings
                   (default 30 (Service.duration_minutes service)) (today + i)).
Proof.
  intros Hp Hd Hfuel. unfold day_body, day_free_slots. cbv zeta.
  apply for_each_appends. intros r out' Hin.
  apply rule_body_spec; [|done|done].
  apply filter_In in Hin as [Hin _].
  rewrite Forall_forall in Hp. apply Hp. by apply list_elem_of_In.
Qed.

Lemma collect_slots_spec fuel service rules bookings today days :
  Forall rule_parses rules ->
  0 < default 30 (Service.duration_minutes service) ->
  (1440 <= fuel)%nat ->
  collect_slots fuel service rules bookings today days =
  Return (horizon_free_slots rules bookings
            (default 30 (Service.duration_minutes service)) today days).
Proof.
  intros Hp Hd Hfuel. unfold collect_slots, horizon_free_slots. cbv zeta.
  rewrite (for_each_appends _ _
             (fun i => day_free_slots rules bookings
                         (default 30 (Service.duration_minutes service))
                         (today + i))); [done|].
  intros i out' _. by apply day_body_spec.
Qed.

(** ** The handlers, step by step *)

(** [get_free_slots] on a configured store, for an identifier that resolves
    to a service: three reads, then the loops, then the slice. *)
Lemma get_free_slots_run fuel today service_id days w st oid svc :
  db w = Some st ->
  ObjectId_of_str service_id = Some oid ->
  service_by_id st oid = Some svc ->
  get_free_slots fuel today service_id days w =
  (out ← collect_slots fuel svc (rules_of st service_id)
           (bookings_of st service_id) today days;
   Return (take 200 out),
   mkWorld (Some st)
     (log w ++ [FindOneService oid; FindAvailability service_id;
                FindBooking service_id])).
Proof.
  intros Hdb Hoid Hsvc.
  unfold get_free_slots, get_db, to_object_id, lift, find_one_service,
    find_availability, find_booking, query, raise.
  destruct w as [d l]. cbn in Hdb. subst d.
  unfold mbind, M_bind, mret, M_ret, outcome_bind.
  rewrite Hoid. cbn [db log]. rewrite Hsvc. cbn [db log].
  rewrite <- !app_assoc. cbn [app].
  by destruct (collect_slots _ _ _ _ _ _).
Qed.

(** The generation order of the whole horizon, then the slice. *)
Lemma get_free_slots_spec fuel today service_id days w st oid svc :
  db w = Some st ->
  ObjectId_of_str service_id = Some oid ->
  service_by_id st oid = Some svc ->
  Forall rule_parses (rules_of st service_id) ->
  0 < default 30 (Service.duration_minutes svc) ->
  (1440 <= fuel)%nat ->
  get_free_slots fuel today service_id days w =
  (Return (take 200
             (horizon_free_slots (rules_of st service_id)
                (bookings_of st service_id)
                (default 30 (Service.duration_minutes svc)) today days)),
   mkWorld (Some st)
     (log w ++ [FindOneService oid; FindAvailability service_id;
                FindBooking service_id])).
Proof.
  intros Hdb Hoid Hsvc Hp Hd Hfuel.
  rewrite (get_free_slots_run _ _ _ _ _ _ _ _ Hdb Hoid Hsvc).
  by rewrite collect_slots_spec.
Qed.

Lemma strftime_HM_combine day t : strftime_HM (combine day t) = strftime_HM t.
Proof.
  rewrite !strftime_HM_eq. unfold combine, minutes_per_day.
  by replace ((day * 1440 + t) mod 1440) with (t mod 1440) by lia.
Qed.

(** The candidates of a window, position by position. *)
Lemma window_candidates_lookup day dur r s e (k : nat) :
  strptime_HM (Availability.start_time r) = Some s ->
  strptime_HM (Availability.end_time r) = Some e ->
  0 < dur ->
  (k < slot_count s e dur)%nat ->
  window_candidates day dur r !! k =
    Some (FreeSlot.mk (isoformat day)
            (strftime_HM (s + Z.of_nat k * dur))
            (strftime_HM (s + (Z.of_nat k + 1) * dur)))
  /\ s + (Z.of_nat k + 1) * dur <= e.
Proof.
  intros Hs He Hd Hk. unfold window_candidates, window_of.
  rewrite Hs, He. cbn [default fst snd]. split.
  - rewrite list_lookup_fmap, cursors_lookup by done. cbn. unfold slot_at.
    rewrite <- (strftime_HM_combine day (s + Z.of_nat k * dur)).
    rewrite <- (strftime_HM_combine day (s + (Z.of_nat k + 1) * dur)).
    do 3 f_equal; unfold combine; ring.
  - unfold slot_count in Hk.
    assert (Z.of_nat k + 1 <= (e - s) / dur) as Hq by lia.
    assert (dur * ((e - s) / dur) <= e - s) by (apply Z.mul_div_le; lia).
    nia.
Qed.

Lemma window_candidates_length day dur r :
  length (window_candidates day dur r)
  = slot_count (window_of r).1 (window_of r).2 dur.
Proof. unfold window_candidates. by rewrite length_map, cursors_length. Qed.


(** ** Discretization of a window *)



(** ** The overlap test *)

(** C3. The overlap test of line 134 does not depend on the order of its two
    intervals, and an interval that is not empty overlaps itself: a
    candidate slot whose times are those of a booked range of the day is
    found to overlap, whatever else is booked. *)
Theorem overlap_symmetric_reflexive a_start a_end b_start b_end ranges :
  intervals_overlap a_start a_end b_start b_end
  = intervals_overlap b_start b_end a_start a_end
  /\ (str_lt a_start a_end = true ->
      intervals_overlap a_start a_end a_start a_end = true
      /\ (In (a_start, a_end) ranges ->
          overlaps_any a_start a_end ranges = true)).
Proof.
  split.
  - unfold intervals_overlap. rewrite !str_ge_le. f_equal. apply orb_comm.
  - intros Hlt.
    assert (intervals_overlap a_start a_end a_start a_end = true) as Hself.
    { unfold intervals_overlap. rewrite str_ge_le.
      rewrite str_lt_not_le in Hlt. apply negb_true_iff in Hlt.
      by rewrite Hlt. }
    split; [done|]. intros Hin. unfold overlaps_any.
    apply existsb_exists. by exists (a_start, a_end).
Qed.

Lemma overlap_symmetric_reflexive_witness :
  str_lt "10:00" "10:30" = true
  /\ intervals_overlap "10:00" "10:30" "10:00" "10:30" = true
  /\ overlaps_any "10:00" "10:30" [("09:00", "09:30"); ("10:00", "10:30")]%string
     = true.
Proof.
  split; [reflexivity|].
  assert (In ("10:00", "10:30")%string
            [("09:00", "09:30"); ("10:00", "10:30")]%string) as Hin
    by (right; left; reflexivity).
  destruct (proj2 (overlap_symmetric_reflexive "10:00" "10:30" "09:00" "09:30"
                     [("09:00", "09:30"); ("10:00", "10:30")]%string)
              eq_refl) as [Hself Hany].
  exact (conj Hself (Hany Hin)).
Defined.

(** ** [create_booking] *)

(** The conflict query is the overlap test of the slot computation, between
    a stored booking and the payload, on the same service and date. *)
Lemma conflict_filter_overlap service_id date before_end after_start b :
  conflict_filter service_id date before_end after_start b = true <->
  Booking.service_id b = service_id /\ Booking.date b = date
  /\ intervals_overlap (Booking.start_time b) (Booking.end_time b)
       after_start before_end = true.
Proof.
  unfold conflict_filter, intervals_overlap.
  rewrite !andb_true_iff, !bool_decide_eq_true.
  rewrite str_gt_lt, !str_lt_not_le, str_ge_le, negb_orb, andb_true_iff.
  tauto.
Qed.

(** [create_booking] on a configured store, for a payload whose service
    resolves: the conflict query, then the insertion when nothing matched. *)
Lemma create_booking_run payload w st oid svc :
  db w = Some st ->
  ObjectId_of_str (Booking.service_id payload) = Some oid ->
  service_by_id st oid = Some svc ->
  let q := FindOneBooking (Booking.service_id payload) (Booking.date payload)
             (Booking.end_time payload) (Booking.start_time payload) in
  let data := Booking.with_service_name (Service.name svc) payload in
  let inserted_id := hex_digits 24 (next_id st) EmptyString in
  create_booking payload w =
  match conflict_of st (Booking.service_id payload) (Booking.date payload)
          (Booking.end_time payload) (Booking.start_time payload) with
  | Some _ =>
      (Raise (HTTPException 409 "Time slot already booked"),
       mkWorld (Some st) (log w ++ [FindOneService oid; q]))
  | None =>
      (Return (mkCreated inserted_id "ok"),
       mkWorld
         (Some (mkStore (service st) (availability st)
                  (booking st ++ [(inserted_id, data)]) (next_id st + 1)))
         (log w ++ [FindOneService oid; q; InsertBooking data]))
  end.
Proof.
  intros Hdb Hoid Hsvc q data inserted_id.
  unfold create_booking, get_db, to_object_id, lift, find_one_service,
    find_one_booking, create_document_booking, query, raise.
  destruct w as [d l]. cbn in Hdb. subst d.
  unfold mbind, M_bind, mret, M_ret.
  rewrite Hoid. cbn [db log]. rewrite Hsvc. cbn [db log].
  destruct (conflict_of _ _ _ _ _); cbn [db log next_id booking service availability];
    rewrite <- !app_assoc; done.
Qed.

(** C2. On a configured store and for a payload whose service resolves,
    [create_booking] fails with 409 exactly when some stored booking of the
    same [service_id] and [date] overlaps the payload's interval, by the
    overlap test of the slot computation. Otherwise it returns the
    identifier under which the new record is stored. A stored booking that
    the payload merely touches (the payload starts where it ends, or ends
    where it starts) does not overlap. *)
Theorem create_booking_conflict_iff payload w st oid svc :
  db w = Some st ->
  ObjectId_of_str (Booking.service_id payload) = Some oid ->
  service_by_id st oid = Some svc ->
  let overlapping (b : Booking.t) :=
    Booking.service_id b = Booking.service_id payload
    /\ Booking.date b = Booking.date payload
    /\ intervals_overlap (Booking.start_time b) (Booking.end_time b)
         (Booking.start_time payload) (Booking.end_time payload) = true in
  let blocked := exists b, In b (map snd (booking st)) /\ overlapping b in
  ((create_booking payload w).1
   = Raise (HTTPException 409 "Time slot already booked") <-> blocked)
  /\ (~ blocked ->
      exists c st',
        (create_booking payload w).1 = Return c
        /\ status c = "ok"%string
        /\ db (create_booking payload w).2 = Some st'
        /\ booking st' =
             booking st
             ++ [(id c, Booking.with_service_name (Service.name svc) payload)])
  /\ (forall b,
        Booking.start_time payload = Booking.end_time b
        \/ Booking.end_time payload = Booking.start_time b ->
        ~ overlapping b).
Proof.
  intros Hdb Hoid Hsvc overlapping blocked.
  assert (blocked <->
          is_Some (conflict_of st (Booking.service_id payload)
                     (Booking.date payload) (Booking.end_time payload)
                     (Booking.start_time payload))) as Hblocked.
  { unfold blocked, overlapping, conflict_of. split.
    - intros (b & Hin & Hov). apply conflict_filter_overlap in Hov.
      destruct (List.find _ _) as [b'|] eqn:E; [by eexists|].
      eapply find_none in E; [|done]. congruence.
    - intros [b E]. apply find_some in E as [Hin Hov].
      exists b. split; [done|]. by apply conflict_filter_overlap. }
  rewrite (create_booking_run payload w st oid svc Hdb Hoid Hsvc).
  split_and!.
  - rewrite Hblocked. destruct (conflict_of _ _ _ _ _); cbn.
    + split; [by eexists|done].
    + split; [done|]. by intros [? ?].
  - intros Hfree. rewrite Hblocked in Hfree.
    destruct (conflict_of _ _ _ _ _); [exfalso; apply Hfree; by eexists|].
    cbn. by eexists _, _.
  - intros b Hadj (_ & _ & Hov). unfold intervals_overlap in Hov.
    apply negb_true_iff, orb_false_iff in Hov as [H1 H2].
    rewrite str_ge_le in H2.
    destruct Hadj as [E|E].
    + rewrite E, str_le_refl in H1. done.
    + rewrite E, str_le_refl in H2. done.
Qed.

Lemma create_booking_conflict_iff_witness :
  (create_booking (sample_payload "10:15" "10:45") (booked_world confirmed)).1
  = Raise (HTTPException 409 "Time slot already booked")
  /\ exists c st',
       (create_booking (sample_payload "10:30" "11:00")
          (booked_world confirmed)).1 = Return c
       /\ status c = "ok"%string
       /\ db (create_booking (sample_payload "10:30" "11:00")
                (booked_world confirmed)).2 = Some st'
       /\ booking st' =
            booking (booked_store confirmed)
            ++ [(id c,
                 Booking.with_service_name (Service.name sample_service)
                   (sample_payload "10:30" "11:00"))].
Proof.
  destruct (create_booking_conflict_iff (sample_payload "10:15" "10:45")
              (booked_world confirmed) (booked_store confirmed) sample_oid
              sample_service eq_refl eq_refl eq_refl) as (Hclash & _ & _).
  destruct (create_booking_conflict_iff (sample_payload "10:30" "11:00")
              (booked_world confirmed) (booked_store confirmed) sample_oid
              sample_service eq_refl eq_refl eq_refl) as (_ & Hfree & Hadj).
  split.
  - apply Hclash. exists (sample_booking "10:00" "10:30" confirmed).
    split; [left; reflexivity|]. repeat split; reflexivity.
  - apply Hfree. intros (b & Hin & Hov).
    destruct Hin as [<-|[]]. revert Hov. apply Hadj. left. reflexivity.
Defined.

(** C10. A call of [create_booking] that raises leaves the store as it was
    and issues no insertion; it never runs out of fuel. A call that returns
    has found the service and then found no conflict, in this order, before
    the one insertion; the record it stores is the payload with
    [service_name] replaced by the name of the service found, under the
    identifier returned. *)
Theorem create_booking_atomic payload w :
  match (create_booking payload w).1 with
  | Raise e =>
      db (create_booking payload w).2 = db w
      /\ exists qs, log (create_booking payload w).2 = log w ++ qs
                    /\ forall doc, ~ In (InsertBooking doc) qs
  | Return c =>
      exists st oid svc,
        db w = Some st
        /\ ObjectId_of_str (Booking.service_id payload) = Some oid
        /\ service_by_id st oid = Some svc
        /\ conflict_of st (Booking.service_id payload) (Booking.date payload)
             (Booking.end_time payload) (Booking.start_time payload) = None
        /\ db (create_booking payload w).2 =
             Some (mkStore (service st) (availability st)
                     (booking st
                      ++ [(id c,
                           Booking.with_service_name (Service.name svc) payload)])
                     (next_id st + 1))
        /\ Booking.service_name
             (Booking.with_service_name (Service.name svc) payload)
           = Service.name svc
        /\ log (create_booking payload w).2 =
             log w
             ++ [FindOneService oid;
                 FindOneBooking (Booking.service_id payload)
                   (Booking.date payload) (Booking.end_time payload)
                   (Booking.start_time payload);
                 InsertBooking
                   (Booking.with_service_name (Service.name svc) payload)]
  | OutOfFuel => False
  end.
Proof.
  destruct (db w) as [st|] eqn:Hdb.
  - destruct (ObjectId_of_str (Booking.service_id payload)) as [oid|] eqn:Hoid.
    + destruct (service_by_id st oid) as [svc|] eqn:Hsvc.
      * rewrite (create_booking_run payload w st oid svc Hdb Hoid Hsvc).
        destruct (conflict_of _ _ _ _ _) eqn:Hc; cbn.
        -- split; [done|]. eexists. split; [done|].
           intros doc [?|[?|[]]]; discriminate.
        -- by exists st, oid, svc.
      * unfold create_booking, get_db, to_object_id, lift, find_one_service,
          query, raise, mbind, M_bind.
        rewrite Hdb, Hoid. cbn [db log]. rewrite Hdb, Hsvc. cbn.
        split; [done|]. eexists. split; [done|].
        intros doc [?|[]]; discriminate.
    + unfold create_booking, get_db, to_object_id, lift, raise, mbind, M_bind.
      rewrite Hdb, Hoid. cbn. split; [done|]. exists [].
      rewrite app_nil_r. split; [done|]. by intros doc [].
  - unfold create_booking, get_db, raise, mbind, M_bind. rewrite Hdb. cbn.
    split; [done|]. exists []. rewrite app_nil_r. split; [done|]. by intros doc [].
Qed.

(** ** Identifiers and the service lookup *)





(** ** Reads only *)


(** The result of [get_free_slots] is a function of the store alone: the
    log of earlier queries has no part in it. *)
Lemma get_free_slots_result fuel today service_id days w1 w2 :
  db w1 = db w2 ->
  (get_free_slots fuel today service_id days w1).1
  = (get_free_slots fuel today service_id days w2).1.
Proof.
  intros Heq. destruct (db w2) as [st|] eqn:Hdb.
  - destruct (ObjectId_of_str service_id) as [oid|] eqn:Hoid.
    + destruct (service_by_id st oid) as [svc|] eqn:Hsvc.
      * by rewrite (get_free_slots_run _ _ _ _ w1 _ _ _ Heq Hoid Hsvc),
          (get_free_slots_run _ _ _ _ w2 _ _ _ Hdb Hoid Hsvc).
      * unfold get_free_slots, get_db, to_object_id, lift, find_one_service,
          query, raise, mbind, M_bind.
        rewrite Heq, Hdb, Hoid. cbn [db log]. by rewrite Heq, Hdb, Hsvc.
    + unfold get_free_slots, get_db, to_object_id, lift, raise, mbind, M_bind.
      by rewrite Heq, Hdb, Hoid.
  - unfold get_free_slots, get_db, raise, mbind, M_bind. by rewrite Heq, Hdb.
Qed.



(** ** Status of bookings *)

Lemma filter_map_same {A : Type} (P : A -> bool) (g : A -> A) (l : list A) :
  (forall x, P (g x) = P x) ->
  List.filter P (map g l) = map g (List.filter P l).
Proof.
  intros HP. induction l as [|x l IH]; [done|]. cbn. rewrite HP.
  destruct (P x); cbn; by rewrite IH.
Qed.

Lemma find_map_same {A : Type} (P : A -> bool) (g : A -> A) (l : list A) :
  (forall x, P (g x) = P x) ->
  List.find P (map g l) = g <$> List.find P l.
Proof.
  intros HP. induction l as [|x l IH]; [done|]. cbn. rewrite HP.
  by destruct (P x).
Qed.

Lemma restatus_bookings f st :
  map snd (booking (restatus f st))
  = map (restatus_booking f) (map snd (booking st)).
Proof. unfold restatus. cbn. by rewrite !map_map. Qed.

Lemma bookings_of_restatus f st service_id :
  bookings_of (restatus f st) service_id
  = map (restatus_booking f) (bookings_of st service_id).
Proof.
  unfold bookings_of. rewrite restatus_bookings. by apply filter_map_same.
Qed.

Lemma conflict_of_restatus f st service_id date before_end after_start :
  conflict_of (restatus f st) service_id date before_end after_start
  = restatus_booking f
      <$> conflict_of st service_id date before_end after_start.
Proof.
  unfold conflict_of. rewrite restatus_bookings. by apply find_map_same.
Qed.

(** The dictionary of booked ranges reads dates and times only. *)
Lemma build_booked_restatus f bookings :
  build_booked (map (restatus_booking f) bookings) = build_booked bookings.
Proof.
  unfold build_booked. generalize (∅ : gmap string (list (string * string))).
  induction bookings as [|b bs IH]; intros acc; [done|]. cbn. by rewrite IH.
Qed.

Lemma collect_slots_restatus f fuel svc rules bookings today days :
  collect_slots fuel svc rules (map (restatus_booking f) bookings) today days
  = collect_slots fuel svc rules bookings today days.
Proof. unfold collect_slots. by rewrite build_booked_restatus. Qed.

(** C6. Replace the status of every stored booking by any other (by
    [confirmed] in particular, with [f] the constant function): the outcome
    of [get_free_slots] and the outcome of [create_booking] are unchanged,
    so a cancelled or pending booking excludes slots and blocks a request
    as a confirmed one does. *)
Theorem status_never_consulted f fuel today service_id days payload w :
  (get_free_slots fuel today service_id days (restatus_world f w)).1
  = (get_free_slots fuel today service_id days w).1
  /\ (create_booking payload (restatus_world f w)).1
     = (create_booking payload w).1.
Proof.
  destruct (db w) as [st|] eqn:Hdb.
  - assert (db (restatus_world f w) = Some (restatus f st)) as Hdb'.
    { unfold restatus_world. cbn. by rewrite Hdb. }
    split.
    + destruct (ObjectId_of_str service_id) as [oid|] eqn:Hoid.
      * destruct (service_by_id st oid) as [svc|] eqn:Hsvc.
        -- rewrite (get_free_slots_run _ _ _ _ _ _ _ _ Hdb' Hoid Hsvc),
             (get_free_slots_run _ _ _ _ _ _ _ _ Hdb Hoid Hsvc).
           cbn [fst]. by rewrite bookings_of_restatus, collect_slots_restatus.
        -- unfold get_free_slots, get_db, to_object_id, lift,
             find_one_service, query, raise, mbind, M_bind.
           rewrite Hdb, Hdb', Hoid. cbn [db log]. rewrite Hdb, Hdb'.
           change (service_by_id (restatus f st) oid)
             with (service_by_id st oid).
           by rewrite Hsvc.
      * unfold get_free_slots, get_db, to_object_id, lift, raise, mbind, M_bind.
        by rewrite Hdb, Hdb', Hoid.
    + destruct (ObjectId_of_str (Booking.service_id payload)) as [oid|] eqn:Hoid.
      * destruct (service_by_id st oid) as [svc|] eqn:Hsvc.
        -- rewrite (create_booking_run _ _ _ _ _ Hdb' Hoid Hsvc),
             (create_booking_run _ _ _ _ _ Hdb Hoid Hsvc).
           rewrite conflict_of_restatus.
           by destruct (conflict_of st _ _ _ _).
        -- unfold create_booking, get_db, to_object_id, lift,
             find_one_service, query, raise, mbind, M_bind.
           rewrite Hdb, Hdb', Hoid. cbn [db log]. rewrite Hdb, Hdb'.
           change (service_by_id (restatus f st) oid)
             with (service_by_id st oid).
           by rewrite Hsvc.
      * unfold create_booking, get_db, to_object_id, lift, raise, mbind, M_bind.
        by rewrite Hdb, Hdb', Hoid.
  - assert (db (restatus_world f w) = None) as Hdb'.
    { unfold restatus_world. cbn. by rewrite Hdb. }
    unfold get_free_slots, create_booking, get_db, raise, mbind, M_bind.
    by rewrite Hdb, Hdb'.
Qed.

(** ** The cap *)




(** ** Selection of the rules of a day *)



(** ** Order of the output *)




(** ** Further facts and examples *)

(** A window whose end is before its start, or shorter than one duration,
    has no candidate. *)
Lemma window_too_short_empty day dur r s e :
  strptime_HM (Availability.start_time r) = Some s ->
  strptime_HM (Availability.end_time r) = Some e ->
  0 < dur -> e < s + dur ->
  window_candidates day dur r = [].
Proof.
  intros Hs He Hd Hlt. unfold window_candidates, window_of.
  rewrite Hs, He. cbn [default fst snd]. by rewrite slot_count_stop.
Qed.

Example sample_oid_of_id : ObjectId_of_str sample_id = Some sample_oid.
Proof. reflexivity. Qed.

Example strftime_0930 : strftime_HM (combine 738893 570) = "09:30"%string.
Proof. reflexivity. Qed.

Example strptime_samples :
  strptime_HM "09:00" = Some 540 /\ strptime_HM "9:5" = Some 545 /\
  strptime_HM "24:00" = None /\ strptime_HM "23:59" = Some 1439 /\
  strptime_HM "1:75" = None /\ strptime_HM "12:345" = None /\
  strptime_HM "2:00" = Some 120 /\ strptime_HM "19:3" = Some 1143 /\
  strptime_HM "3:60" = None /\ strptime_HM "09:00 " = None.
Proof. repeat split; reflexivity. Qed.

Example isoformat_samples :
  isoformat 738893 = "2024-01-08"%string /\ weekday 738893 = 0 /\
  isoformat 738945 = "2024-02-29"%string /\ isoformat 1 = "0001-01-01"%string /\
  isoformat 3652059 = "9999-12-31"%string /\ weekday 738894 = 1.
Proof. repeat split; reflexivity. Qed.

(** The end-to-end example: a 30-minute service, a Monday rule
    09:00-10:00, no booking, a horizon with one Monday. *)
Example one_monday_two_slots :
  (get_free_slots 1440 sample_day sample_id 7
     (mkWorld (Some (sample_store [monday_rule] [])) [])).1
  = Return [FreeSlot.mk "2024-01-08" "09:00" "09:30";
            FreeSlot.mk "2024-01-08" "09:30" "10:00"].
Proof. by vm_compute. Qed.

(** A cancelled booking 09:00-09:30 removes that slot and blocks a request
    that overlaps it. *)
Example cancelled_booking_blocks :
  let w := mkWorld
             (Some (sample_store [monday_rule]
                      [("000000000000000000000000"%string,
                        sample_booking "09:00" "09:30" cancelled)])) [] in
  (get_free_slots 1440 sample_day sample_id 7 w).1
  = Return [FreeSlot.mk "2024-01-08" "09:30" "10:00"]
  /\ (create_booking (sample_payload "09:15" "09:45") w).1
     = Raise (HTTPException 409 "Time slot already booked").
Proof. by vm_compute. Qed.

(** The name the client sent is replaced by the name of the service. *)
Example service_name_overwritten :
  Booking.service_name (sample_payload "10:30" "11:00")
  = Some "Free session"%string
  /\ booking <$> db (create_booking (sample_payload "10:30" "11:00")
                       (booked_world confirmed)).2
     = Some (booking (booked_store confirmed)
             ++ [("000000000000000000000001"%string,
                  Booking.mk sample_id (Some "Consultation Call"%string)
                    "Bob" "bob@example.org" "2024-01-08" "10:30" "11:00"
                    None confirmed)]).
Proof. by vm_compute. Qed.

(** A duration that is not positive: the loop of a window that admits one
    step has no result. *)
Example zero_duration_no_result fuel :
  rule_body fuel
    (Service.mk sample_oid None None (Some 0) None None)
    (build_booked []) sample_day (isoformat sample_day) monday_rule []
  = OutOfFuel.
Proof.
  unfold rule_body, parse_time.
  change (strptime_HM (Availability.start_time monday_rule)) with (Some 540).
  change (strptime_HM (Availability.end_time monday_rule)) with (Some 600).
  unfold mbind, outcome_bind.
  apply while_slots_stuck; [done|]. by vm_compute.
Qed.

(** * More of the handlers *)

(** ** The time pattern of the schemas and [parse_time] *)

Lemma digit_char_val c d : digit_val c = Some d -> digit_char d = c.
Proof.
  destruct c as [b0 b1 b2 b3 b4 b5 b6 b7].
  destruct b0, b1, b2, b3, b4, b5, b6, b7; cbn; intros H;
    try discriminate H; injection H as <-; reflexivity.
Qed.

Lemma parse_colon_minute_digit c d rest :
  digit_val c = Some d -> parse_colon_minute (String c rest) = None.
Proof.
  destruct c as [b0 b1 b2 b3 b4 b5 b6 b7].
  destruct b0, b1, b2, b3, b4, b5, b6, b7; cbn; intros H;
    try discriminate H; reflexivity.
Qed.

(** A text that matches the pattern is its two fields, written on two
    digits each around a colon. *)
Lemma time_pattern_text s hh mm :
  time_pattern s = Some (hh, mm) ->
  s = two_digits hh +:+ ":" +:+ two_digits mm
  /\ 0 <= hh < 100 /\ 0 <= mm < 100.
Proof.
  intros H.
  assert (exists h1 h2 m1 m2,
             s = String h1 (String h2 (String ":" (String m1 (String m2 ""))))) as
    (h1 & h2 & m1 & m2 & ->).
  { destruct s as [|h1 [|h2 [|c [|m1 [|m2 [|]]]]]]; try discriminate H;
      destruct c as [b0 b1 b2 b3 b4 b5 b6 b7];
      destruct b0, b1, b2, b3, b4, b5, b6, b7; try discriminate H.
    by eexists _, _, _, _. }
  unfold time_pattern in H.
  destruct (digit_val h1) as [a|] eqn:E1; [|done].
  destruct (digit_val h2) as [b|] eqn:E2; [|done].
  destruct (digit_val m1) as [c|] eqn:E3; [|done].
  destruct (digit_val m2) as [d|] eqn:E4; [|done].
  cbn in H. injection H as <- <-.
  pose proof (digit_val_range _ _ E1). pose proof (digit_val_range _ _ E2).
  pose proof (digit_val_range _ _ E3). pose proof (digit_val_range _ _ E4).
  split; [|lia].
  rewrite two_digits_append, append_String, append_nil_l. unfold two_digits.
  replace ((a * 10 + b) / 10) with a by lia.
  replace ((a * 10 + b) mod 10) with b by lia.
  replace ((c * 10 + d) / 10) with c by lia.
  replace ((c * 10 + d) mod 10) with d by lia.
  by rewrite (digit_char_val _ _ E1), (digit_char_val _ _ E2),
    (digit_char_val _ _ E3), (digit_char_val _ _ E4).
Qed.

Lemma strptime_HM_two_fields hh mm :
  0 <= hh < 100 -> 0 <= mm < 100 ->
  strptime_HM (two_digits hh +:+ ":" +:+ two_digits mm)
  = if (hh <=? 23) && (mm <=? 59) then Some (hh * 60 + mm) else None.
Proof.
  intros Hh Hm.
  rewrite two_digits_append, append_String, append_nil_l.
  unfold two_digits, strptime_HM.
  rewrite !digit_val_char by lia.
  rewrite (parse_colon_minute_digit (digit_char (hh mod 10)) (hh mod 10))
    by (apply digit_val_char; lia).
  cbn [mbind option_bind].
  replace (hh / 10 * 10 + hh mod 10) with hh by lia.
  destruct (Z.leb_spec hh 23) as [H23|H23]; [|done].
  unfold parse_colon_minute, parse_minute.
  rewrite !digit_val_char by lia.
  destruct (Z.leb_spec (mm / 10) 5) as [H5|H5];
    destruct (Z.leb_spec mm 59) as [H59|H59]; try lia; cbn; [|done].
  f_equal. lia.
Qed.

Lemma time_pattern_compare a b ha ma hb mb :
  time_pattern a = Some (ha, ma) ->
  time_pattern b = Some (hb, mb) ->
  String.compare a b = Z.compare (ha * 100 + ma) (hb * 100 + mb).
Proof.
  intros Ha Hb.
  destruct (time_pattern_text _ _ _ Ha) as (-> & Hha & Hma).
  destruct (time_pattern_text _ _ _ Hb) as (-> & Hhb & Hmb).
  rewrite two_digits_compare by lia.
  rewrite !append_String, !append_nil_l.
  cbn [String.compare]. change (Ascii.compare ":" ":") with Eq. cbv iota.
  change (two_digits ma) with (two_digits ma +:+ "").
  change (two_digits mb) with (two_digits mb +:+ "").
  rewrite two_digits_compare by lia. cbn [String.compare].
  destruct (Z.compare_spec ha hb) as [E|E|E];
    destruct (Z.compare_spec ma mb) as [E'|E'|E'];
    destruct (Z.compare_spec (ha * 100 + ma) (hb * 100 + mb)) as [E''|E''|E''];
    try done; exfalso; lia.
Qed.

(** X1. A text that the schemas' time pattern accepts is accepted by
    [parse_time] exactly when its hour is at most 23 and its minute at most
    59; the datetime is then on the default day at that hour and minute.
    Any other text of the pattern makes [parse_time] raise [ValueError]. *)
Theorem parse_time_on_schema_times s hh mm :
  time_pattern s = Some (hh, mm) ->
  parse_time s =
    if (hh <=? 23) && (mm <=? 59)
    then Return (combine strptime_default_day (hh * 60 + mm))
    else Raise ValueError.
Proof.
  intros Hs. destruct (time_pattern_text _ _ _ Hs) as (-> & Hh & Hm).
  unfold parse_time. rewrite strptime_HM_two_fields by done.
  by destruct ((hh <=? 23) && (mm <=? 59)).
Qed.

Lemma parse_time_on_schema_times_witness :
  parse_time "24:00" = Raise ValueError
  /\ parse_time "09:60" = Raise ValueError
  /\ parse_time "23:59" = Return (combine strptime_default_day 1439).
Proof.
  split; [|split].
  - exact (parse_time_on_schema_times "24:00" 24 0 eq_refl).
  - exact (parse_time_on_schema_times "09:60" 9 60 eq_refl).
  - exact (parse_time_on_schema_times "23:59" 23 59 eq_refl).
Defined.

(** X2. Parsing and formatting are inverse to each other: the text
    [strftime] writes for a datetime parses to the time of day of that
    datetime, and a text of the schemas' pattern that is a time of the
    clock is the text [strftime] writes for what it parses to. *)
Theorem time_text_round_trip :
  (forall dt,
     parse_time (strftime_HM dt)
     = Return (combine strptime_default_day (time_of dt)))
  /\ (forall s hh mm,
        time_pattern s = Some (hh, mm) -> hh <= 23 -> mm <= 59 ->
        exists dt, parse_time s = Return dt /\ strftime_HM dt = s).
Proof.
  split.
  - intros dt. unfold parse_time. by rewrite strptime_strftime.
  - intros s hh mm Hs Hh Hm.
    destruct (time_pattern_text _ _ _ Hs) as (-> & Hhr & Hmr).
    exists (combine strptime_default_day (hh * 60 + mm)). split.
    + unfold parse_time. rewrite strptime_HM_two_fields by done.
      destruct (Z.leb_spec hh 23); [|lia].
      by destruct (Z.leb_spec mm 59); [|lia].
    + rewrite strftime_HM_combine, strftime_HM_eq.
      replace ((hh * 60 + mm) mod 1440 / 60) with hh by lia.
      by replace ((hh * 60 + mm) mod 1440 mod 60) with mm by lia.
Qed.

Lemma time_text_round_trip_witness :
  exists dt, parse_time "17:45" = Return dt /\ strftime_HM dt = "17:45"%string.
Proof.
  apply (proj2 time_text_round_trip "17:45" 17 45); [reflexivity | lia | lia].
Defined.

(** X3. On texts of the schemas' time pattern, the overlap test of the
    slot computation and of the conflict query, which compares texts, is
    the overlap of the intervals of numbers they write (hour * 100 +
    minute): [a_start < b_end] and [b_start < a_end]. *)
Theorem overlap_on_schema_times a_start a_end b_start b_end
    h1 m1 h2 m2 h3 m3 h4 m4 :
  time_pattern a_start = Some (h1, m1) ->
  time_pattern a_end = Some (h2, m2) ->
  time_pattern b_start = Some (h3, m3) ->
  time_pattern b_end = Some (h4, m4) ->
  intervals_overlap a_start a_end b_start b_end
  = (h1 * 100 + m1 <? h4 * 100 + m4) && (h3 * 100 + m3 <? h2 * 100 + m2).
Proof.
  intros H1 H2 H3 H4. unfold intervals_overlap, str_le, str_ge.
  rewrite (time_pattern_compare _ _ _ _ _ _ H2 H3),
    (time_pattern_compare _ _ _ _ _ _ H1 H4).
  destruct (Z.compare_spec (h2 * 100 + m2) (h3 * 100 + m3));
    destruct (Z.compare_spec (h1 * 100 + m1) (h4 * 100 + m4));
    destruct (Z.ltb_spec (h1 * 100 + m1) (h4 * 100 + m4));
    destruct (Z.ltb_spec (h3 * 100 + m3) (h2 * 100 + m2));
    try done; lia.
Qed.

Lemma overlap_on_schema_times_witness :
  intervals_overlap "10:15" "10:45" "10:00" "10:30"
  = (10 * 100 + 15 <? 10 * 100 + 30) && (10 * 100 + 0 <? 10 * 100 + 45).
Proof.
  exact (overlap_on_schema_times "10:15" "10:45" "10:00" "10:30"
           10 15 10 45 10 0 10 30 eq_refl eq_refl eq_refl eq_refl).
Defined.

(** ** Loops that fail, never leave, or find nothing *)

Lemma range_In days i : In i (range days) <-> 0 <= i < days.
Proof.
  unfold range. rewrite in_map_iff. split.
  - intros (k & <- & Hk). apply in_seq in Hk. lia.
  - intros Hi. exists (Z.to_nat i). split; [lia|]. apply in_seq. lia.
Qed.






(** The handler's outcome is the outcome of the loops, cut at 200. *)
Lemma get_free_slots_outcome fuel today service_id days w st oid svc :
  db w = Some st ->
  ObjectId_of_str service_id = Some oid ->
  service_by_id st oid = Some svc ->
  (get_free_slots fuel today service_id days w).1 =
  (out ← collect_slots fuel svc (rules_of st service_id)
           (bookings_of st service_id) today days;
   Return (take 200 out)).
Proof.
  intros Hdb Hoid Hsvc.
  by rewrite (get_free_slots_run _ _ _ _ _ _ _ _ Hdb Hoid Hsvc).
Qed.







(** ** What the returned slots are *)

Lemma horizon_free_slots_In rules bookings dur today days slot :
  In slot (horizon_free_slots rules bookings dur today days) <->
  exists i r,
    0 <= i < days /\ In r rules
    /\ rule_matches (weekday (today + i)) (isoformat (today + i)) r = true
    /\ In slot (window_candidates (today + i) dur r)
    /\ is_free (booked_on bookings (isoformat (today + i))) slot = true.
Proof.
  unfold horizon_free_slots, day_free_slots, rule_free_slots.
  rewrite in_flat_map. split.
  - intros (i & Hi & Hin). apply range_In in Hi.
    apply in_flat_map in Hin as (r & Hr & Hin).
    apply filter_In in Hr as [Hr Hm]. apply filter_In in Hin as [Hin Hfree].
    by exists i, r.
  - intros (i & r & Hi & Hr & Hm & Hin & Hfree).
    exists i. split; [by apply range_In|].
    apply in_flat_map. exists r. split; by apply filter_In.
Qed.

Lemma window_candidates_In day dur r s e slot :
  strptime_HM (Availability.start_time r) = Some s ->
  strptime_HM (Availability.end_time r) = Some e ->
  0 < dur ->
  In slot (window_candidates day dur r) <->
  exists k : nat,
    (k < slot_count s e dur)%nat
    /\ slot = FreeSlot.mk (isoformat day)
                (strftime_HM (s + Z.of_nat k * dur))
                (strftime_HM (s + (Z.of_nat k + 1) * dur)).
Proof.
  intros Hs He Hd.
  assert (length (window_candidates day dur r) = slot_count s e dur) as Hlen.
  { rewrite window_candidates_length. unfold window_of. by rewrite Hs, He. }
  rewrite <- list_elem_of_In, list_elem_of_lookup. split.
  - intros [k Hk]. exists k.
    pose proof (lookup_lt_Some _ _ _ Hk) as Hlt. rewrite Hlen in Hlt.
    split; [done|].
    destruct (window_candidates_lookup day dur r s e k Hs He Hd Hlt) as [Hk' _].
    congruence.
  - intros (k & Hlt & ->). exists k.
    by destruct (window_candidates_lookup day dur r s e k Hs He Hd Hlt).
Qed.

Lemma slot_count_fits s e dur (k : nat) :
  0 < dur -> (k < slot_count s e dur)%nat <-> s + (Z.of_nat k + 1) * dur <= e.
Proof.
  intros Hd. unfold slot_count. split.
  - intros Hk.
    assert (Z.of_nat k + 1 <= (e - s) / dur) as Hq by lia.
    assert (dur * ((e - s) / dur) <= e - s) by (apply Z.mul_div_le; lia).
    nia.
  - intros Hfit.
    assert (Z.of_nat k + 1 <= (e - s) / dur)
      by (apply Z.div_le_lower_bound; lia).
    lia.
Qed.

(** A candidate carries the day's date and starts before it ends. *)
Lemma window_candidates_shape day dur r slot :
  rule_parses r -> 0 < dur ->
  In slot (window_candidates day dur r) ->
  FreeSlot.date slot = isoformat day
  /\ str_lt (FreeSlot.start_time slot) (FreeSlot.end_time slot) = true.
Proof.
  intros [[s Hs] [e He]] Hd Hin.
  pose proof (strptime_HM_range _ _ Hs) as Hsr.
  pose proof (strptime_HM_range _ _ He) as Her.
  apply (window_candidates_In day dur r s e slot Hs He Hd) in Hin
    as (k & Hk & ->).
  apply slot_count_fits in Hk; [|done]. cbn. split; [done|].
  rewrite strftime_HM_lt by nia. apply Z.ltb_lt. nia.
Qed.

Lemma is_free_spec ranges slot :
  is_free ranges slot = true <->
  forall b_start b_end,
    In (b_start, b_end) ranges ->
    intervals_overlap (FreeSlot.start_time slot) (FreeSlot.end_time slot)
      b_start b_end = false.
Proof.
  unfold is_free, overlaps_any. rewrite negb_true_iff. split.
  - intros Hnone bs be Hin.
    destruct (intervals_overlap _ _ bs be) eqn:E; [|done].
    assert (existsb
              (fun '(b_start, b_end) =>
                 intervals_overlap (FreeSlot.start_time slot)
                   (FreeSlot.end_time slot) b_start b_end) ranges = true)
      as Hex by (apply existsb_exists; by exists (bs, be)).
    congruence.
  - intros Hall. destruct (existsb _ _) eqn:E; [|done].
    apply existsb_exists in E as ([bs be] & Hin & Hov).
    rewrite (Hall bs be Hin) in Hov. done.
Qed.

Lemma booked_on_In bookings d b_start b_end :
  In (b_start, b_end) (booked_on bookings d) <->
  exists b, In b bookings /\ Booking.date b = d
            /\ Booking.start_time b = b_start /\ Booking.end_time b = b_end.
Proof.
  unfold booked_on. rewrite in_map_iff. split.
  - intros (b & [= <- <-] & Hin). apply filter_In in Hin as [Hin Hd].
    apply bool_decide_eq_true in Hd. by exists b.
  - intros (b & Hin & Hd & <- & <-). exists b. split; [done|].
    apply filter_In. split; [done|]. by apply bool_decide_eq_true.
Qed.

Lemma bookings_of_In st service_id b :
  In b (bookings_of st service_id) <->
  In b (map snd (booking st)) /\ Booking.service_id b = service_id.
Proof.
  unfold bookings_of. rewrite filter_In. by rewrite bool_decide_eq_true.
Qed.


Lemma In_take {A : Type} (n : nat) (l : list A) x : In x (take n l) -> In x l.
Proof.
  rewrite <- !list_elem_of_In. intros Hin.
  apply list_elem_of_lookup in Hin as [k Hk].
  apply lookup_take_Some in Hk as [Hk _]. by eapply list_elem_of_lookup_2.
Qed.







(** ** Listing slots, then booking one *)

Lemma intervals_overlap_sym a_start a_end b_start b_end :
  intervals_overlap a_start a_end b_start b_end
  = intervals_overlap b_start b_end a_start a_end.
Proof. unfold intervals_overlap. rewrite !str_ge_le. f_equal. apply orb_comm. Qed.

Lemma intervals_overlap_self a_start a_end :
  str_lt a_start a_end = true ->
  intervals_overlap a_start a_end a_start a_end = true.
Proof.
  intros Hlt. unfold intervals_overlap. rewrite str_ge_le.
  rewrite str_lt_not_le in Hlt. apply negb_true_iff in Hlt. by rewrite Hlt.
Qed.

(** The conflict query finds nothing exactly when no booking of the
    service on the date overlaps the asked interval. *)
Lemma conflict_of_None st service_id date before_end after_start :
  conflict_of st service_id date before_end after_start = None <->
  forall b,
    In b (bookings_of st service_id) -> Booking.date b = date ->
    intervals_overlap (Booking.start_time b) (Booking.end_time b)
      after_start before_end = false.
Proof.
  unfold conflict_of. split.
  - intros Hnone b Hb Hd. apply bookings_of_In in Hb as [Hb Hsid].
    pose proof (find_none _ _ Hnone b Hb) as Hf.
    destruct (intervals_overlap _ _ _ _) eqn:E; [|done].
    assert (conflict_filter service_id date before_end after_start b = true)
      as Hc by (by apply conflict_filter_overlap).
    congruence.
  - intros Hall. destruct (List.find _ _) as [b|] eqn:E; [|done].
    apply find_some in E as [Hb Hc].
    apply conflict_filter_overlap in Hc as (Hsid & Hd & Hov).
    rewrite Hall in Hov; [done| |done]. by apply bookings_of_In.
Qed.



Lemma filter_flat_map {A B : Type} (P : B -> bool) (f : A -> list B)
    (l : list A) :
  List.filter P (flat_map f l) = flat_map (fun x => List.filter P (f x)) l.
Proof.
  induction l as [|x l IH]; [done|]. cbn. by rewrite List.filter_app, IH.
Qed.

Lemma filter_filter_and {A : Type} (P Q : A -> bool) (l : list A) :
  List.filter Q (List.filter P l) = List.filter (fun x => P x && Q x) l.
Proof.
  induction l as [|x l IH]; [done|]. cbn.
  destruct (P x); cbn; [destruct (Q x)|]; by rewrite IH.
Qed.

Lemma is_free_app l1 l2 slot :
  is_free (l1 ++ l2) slot = is_free l1 slot && is_free l2 slot.
Proof. unfold is_free, overlaps_any. by rewrite existsb_app, negb_orb. Qed.

Lemma booked_on_app bs1 bs2 d :
  booked_on (bs1 ++ bs2) d = booked_on bs1 d ++ booked_on bs2 d.
Proof. unfold booked_on. by rewrite List.filter_app, map_app. Qed.

(** The slots kept when the booking [b] is added. *)
Lemma horizon_free_slots_add_booking rules bookings b dur today days :
  horizon_free_slots rules (bookings ++ [b]) dur today days
  = List.filter
      (fun x =>
         negb (bool_decide (FreeSlot.date x = Booking.date b)
               && intervals_overlap (FreeSlot.start_time x)
                    (FreeSlot.end_time x) (Booking.start_time b)
                    (Booking.end_time b)))
      (horizon_free_slots rules bookings dur today days).
Proof.
  unfold horizon_free_slots, day_free_slots, rule_free_slots.
  rewrite filter_flat_map. apply flat_map_ext. intros i.
  rewrite filter_flat_map. apply flat_map_ext. intros r.
  rewrite filter_filter_and. apply filter_ext_in. intros x Hx.
  assert (FreeSlot.date x = isoformat (today + i)) as Hdate.
  { unfold window_candidates in Hx. apply in_map_iff in Hx as (c & <- & _).
    done. }
  rewrite booked_on_app, is_free_app. f_equal.
  unfold booked_on. cbn [List.filter]. rewrite Hdate.
  destruct (decide (Booking.date b = isoformat (today + i))) as [E|E].
  - rewrite !bool_decide_true by done. cbn.
    unfold is_free, overlaps_any. cbn. by rewrite orb_false_r.
  - rewrite !bool_decide_false by congruence. done.
Qed.

Lemma bookings_of_snoc st st' service_id stored_id b :
  booking st' = booking st ++ [(stored_id, b)] ->
  bookings_of st' service_id
  = bookings_of st service_id
    ++ (if bool_decide (Booking.service_id b = service_id) then [b] else []).
Proof.
  intros Hb. unfold bookings_of. rewrite Hb, map_app, List.filter_app. done.
Qed.

(** The slot sequence after a booking of the service went in. *)
Lemma get_free_slots_after_booking fuel today service_id days w st oid svc
    payload :
  db w = Some st ->
  ObjectId_of_str service_id = Some oid ->
  service_by_id st oid = Some svc ->
  Forall rule_parses (rules_of st service_id) ->
  0 < default 30 (Service.duration_minutes svc) ->
  (1440 <= fuel)%nat ->
  Booking.service_id payload = service_id ->
  conflict_of st (Booking.service_id payload) (Booking.date payload)
    (Booking.end_time payload) (Booking.start_time payload) = None ->
  (get_free_slots fuel today service_id days (create_booking payload w).2).1
  = Return
      (take 200
         (List.filter
            (fun x =>
               negb (bool_decide (FreeSlot.date x = Booking.date payload)
                     && intervals_overlap (FreeSlot.start_time x)
                          (FreeSlot.end_time x) (Booking.start_time payload)
                          (Booking.end_time payload)))
            (horizon_free_slots (rules_of st service_id)
               (bookings_of st service_id)
               (default 30 (Service.duration_minutes svc)) today days))).
Proof.
  intros Hdb Hoid Hsvc Hp Hd Hfuel Hsid Hfree.
  assert (ObjectId_of_str (Booking.service_id payload) = Some oid) as Hoid'
    by (by rewrite Hsid).
  rewrite (create_booking_run payload w st oid svc Hdb Hoid' Hsvc), Hfree.
  cbn [snd].
  set (data := Booking.with_service_name (Service.name svc) payload).
  set (st1 := mkStore (service st) (availability st)
                (booking st ++ [(hex_digits 24 (next_id st) EmptyString, data)])
                (next_id st + 1)).
  rewrite (get_free_slots_spec fuel today service_id days (mkWorld (Some st1) _)
             st1 oid svc eq_refl Hoid Hsvc Hp Hd Hfuel).
  cbn [fst]. do 2 f_equal.
  rewrite (bookings_of_snoc st st1 service_id _ data eq_refl).
  change (Booking.service_id data) with (Booking.service_id payload).
  rewrite bool_decide_true by done.
  change (rules_of st1 service_id) with (rules_of st service_id).
  by rewrite horizon_free_slots_add_booking.
Qed.



(** X12. A slot that [get_free_slots] returned and that was then booked is
    not returned again: after [create_booking] for that slot, a listing
    with the same arguments returns a list that does not hold it, and
    holds nothing the earlier sequence did not hold. *)
Theorem booked_slot_is_not_offered_again fuel today service_id days w st oid
    svc slot customer_name email :
  db w = Some st ->
  ObjectId_of_str service_id = Some oid ->
  service_by_id st oid = Some svc ->
  Forall rule_parses (rules_of st service_id) ->
  0 < default 30 (Service.duration_minutes svc) ->
  (1440 <= fuel)%nat ->
  (exists out,
     (get_free_slots fuel today service_id days w).1 = Return out
     /\ In slot out) ->
  exists raw out',
    collect_slots fuel svc (rules_of st service_id)
      (bookings_of st service_id) today days = Return raw
    /\ (get_free_slots fuel today service_id days
          (create_booking (payload_for service_id customer_name email slot)
             w).2).1 = Return out'
    /\ ~ In slot out'
    /\ forall x, In x out' -> In x raw.
Proof.
  intros Hdb Hoid Hsvc Hp Hd Hfuel (out & Hout & Hin).
  rewrite (get_free_slots_spec _ _ _ _ _ _ _ _ Hdb Hoid Hsvc Hp Hd Hfuel)
    in Hout.
  injection Hout as <-. apply In_take in Hin.
  pose proof Hin as Hin'. apply horizon_free_slots_In in Hin'
    as (i & r & Hi & Hr & Hm & Hcand & Hfree).
  assert (rule_parses r) as Hpr.
  { rewrite Forall_forall in Hp. apply Hp. by apply list_elem_of_In. }
  destruct (window_candidates_shape _ _ _ _ Hpr Hd Hcand) as [Hday Hlt].
  eexists _, _. split; [by apply collect_slots_spec|].
  split.
  - apply (get_free_slots_after_booking _ _ _ _ _ st oid svc); try done.
    cbn [payload_for Booking.service_id Booking.date Booking.end_time
           Booking.start_time].
    apply conflict_of_None. intros b Hb Hdate. rewrite intervals_overlap_sym.
    rewrite is_free_spec in Hfree. apply Hfree.
    apply booked_on_In. exists b. split; [done|]. split; [congruence|done].
  - cbn [payload_for Booking.date Booking.end_time Booking.start_time].
    split.
    + intros Hagain. apply In_take, filter_In in Hagain as [_ Hkeep].
      rewrite bool_decide_true, intervals_overlap_self in Hkeep by done.
      done.
    + intros x Hx. by apply In_take, filter_In in Hx as [Hx _].
Qed.

Lemma booked_slot_is_not_offered_again_witness :
  exists raw out',
    collect_slots 1440 sample_service (rules_of morning_store sample_id)
      (bookings_of morning_store sample_id) sample_day 7 = Return raw
    /\ (get_free_slots 1440 sample_day sample_id 7
          (create_booking
             (payload_for sample_id "Bob" "bob@example.org"
                (FreeSlot.mk "2024-01-08" "09:30" "10:00"))
             morning_world).2).1 = Return out'
    /\ ~ In (FreeSlot.mk "2024-01-08" "09:30" "10:00") out'
    /\ forall x, In x out' -> In x raw.
Proof.
  apply (booked_slot_is_not_offered_again 1440 sample_day sample_id 7
           morning_world morning_store sample_oid sample_service
           (FreeSlot.mk "2024-01-08" "09:30" "10:00") "Bob" "bob@example.org");
    [reflexivity | reflexivity | reflexivity
    | repeat constructor; by eexists | reflexivity | lia |].
  exists [FreeSlot.mk "2024-01-08" "09:30" "10:00"].
  split; [vm_compute; reflexivity | left; reflexivity].
Defined.

(** ** What a listing does not depend on *)

(** The store [create_booking] leaves: the store it found, or that store
    with the payload's record added to the bookings. *)
Lemma create_booking_store payload w :
  db (create_booking payload w).2 = db w
  \/ exists st stored_id name,
       db w = Some st
       /\ db (create_booking payload w).2
          = Some (mkStore (service st) (availability st)
                    (booking st
                     ++ [(stored_id, Booking.with_service_name name payload)])
                    (next_id st + 1)).
Proof.
  destruct (db w) as [st|] eqn:Hdb.
  - destruct (ObjectId_of_str (Booking.service_id payload)) as [oid|] eqn:Hoid.
    + destruct (service_by_id st oid) as [svc|] eqn:Hsvc.
      * rewrite (create_booking_run payload w st oid svc Hdb Hoid Hsvc).
        destruct (conflict_of _ _ _ _ _); cbn; [by left|].
        right. by eexists _, _, _.
      * left. unfold create_booking, get_db, to_object_id, lift,
          find_one_service, query, raise, mbind, M_bind.
        rewrite Hdb, Hoid. cbn [db log]. by rewrite Hdb, Hsvc.
    + left. unfold create_booking, get_db, to_object_id, lift, raise, mbind,
        M_bind.
      by rewrite Hdb, Hoid.
  - left. unfold create_booking, get_db, raise, mbind, M_bind. by rewrite Hdb.
Qed.

(** The outcome of a listing is a function of the services, of the rules
    of the service asked and of the bookings of the service asked. *)
Lemma get_free_slots_frame fuel today service_id days w1 w2 st1 st2 :
  db w1 = Some st1 -> db w2 = Some st2 ->
  service st1 = service st2 ->
  rules_of st1 service_id = rules_of st2 service_id ->
  bookings_of st1 service_id = bookings_of st2 service_id ->
  (get_free_slots fuel today service_id days w1).1
  = (get_free_slots fuel today service_id days w2).1.
Proof.
  intros Hdb1 Hdb2 Hsvcs Hrules Hbookings.
  destruct (ObjectId_of_str service_id) as [oid|] eqn:Hoid.
  - assert (service_by_id st1 oid = service_by_id st2 oid) as Hsame
      by (unfold service_by_id; by rewrite Hsvcs).
    destruct (service_by_id st2 oid) as [svc|] eqn:Hsvc.
    + rewrite (get_free_slots_outcome _ _ _ _ _ _ _ _ Hdb1 Hoid Hsame),
        (get_free_slots_outcome _ _ _ _ _ _ _ _ Hdb2 Hoid Hsvc).
      by rewrite Hrules, Hbookings.
    + unfold get_free_slots, get_db, to_object_id, lift, find_one_service,
        query, raise, mbind, M_bind.
      rewrite Hdb1, Hdb2, Hoid. cbn [db log].
      by rewrite Hdb1, Hdb2, Hsame, Hsvc.
  - unfold get_free_slots, get_db, to_object_id, lift, raise, mbind, M_bind.
    by rewrite Hdb1, Hdb2, Hoid.
Qed.

(** X13. A booking made under another [service_id] changes nothing for
    this one: whatever [create_booking] did with a payload whose
    [service_id] is a different text, a listing for this service has the
    same outcome after it as before. *)
Theorem other_services_bookings_ignored fuel today service_id days payload w :
  Booking.service_id payload <> service_id ->
  (get_free_slots fuel today service_id days (create_booking payload w).2).1
  = (get_free_slots fuel today service_id days w).1.
Proof.
  intros Hother.
  destruct (create_booking_store payload w)
    as [Hsame|(st & stored_id & name & Hdb & Hafter)].
  - by apply get_free_slots_result.
  - apply (get_free_slots_frame _ _ _ _ _ _ _ _ Hafter Hdb); [done|done|].
    rewrite (bookings_of_snoc st
               (mkStore (service st) (availability st)
                  (booking st
                   ++ [(stored_id, Booking.with_service_name name payload)])
                  (next_id st + 1))
               service_id stored_id
               (Booking.with_service_name name payload) eq_refl).
    change (Booking.service_id (Booking.with_service_name name payload))
      with (Booking.service_id payload).
    rewrite bool_decide_false by done. by rewrite app_nil_r.
Qed.

Lemma other_services_bookings_ignored_witness :
  (get_free_slots 1440 sample_day "0123456789abcdef01234567" 7
     (create_booking (sample_payload "09:30" "10:00") morning_world).2).1
  = (get_free_slots 1440 sample_day "0123456789abcdef01234567" 7
       morning_world).1.
Proof.
  apply (other_services_bookings_ignored 1440 sample_day
           "0123456789abcdef01234567" 7 (sample_payload "09:30" "10:00")
           morning_world).
  discriminate.
Defined.




(** ** Identifiers and their text *)














(** ** [seed_data] *)



(** The five insertions of lines 67-74. *)
Lemma seed_rules_added service_id st :
  for_each (range 5)
    (fun weekday st =>
       Return (create_document_availability (seed_rule service_id weekday)
                 st).2)
    st
  = Return (mkStore (service st)
              (availability st ++ map (seed_rule service_id) (range 5))
              (booking st) (next_id st + 5)).
Proof.
  change (range 5) with [0; 1; 2; 3; 4].
  cbn [for_each mbind outcome_bind create_document_availability snd service
         availability booking next_id map].
  f_equal. f_equal.
  - by rewrite <- !app_assoc.
  - lia.
Qed.

(** What [seed_data] leaves, case by case. *)
Lemma seed_data_Some st :
  seed_data (Some st) =
  Return
    (Some
       (let st1 :=
          if Nat.eqb (length (service st)) 0
          then (create_document_service seed_service st).2
          else st in
        match availability st1, service st1 with
        | [], service0 :: _ =>
            mkStore (service st1)
              (map (seed_rule (ObjectId_str (Service._id service0))) (range 5))
              (booking st1) (next_id st1 + 5)
        | _, _ => st1
        end)).
Proof.
  destruct st as [svcs rules bks n]. unfold seed_data. cbv zeta.
  destruct svcs as [|s0 ss]; destruct rules as [|r rs];
    cbn [length Nat.eqb service availability booking next_id
           create_document_service snd app]; try done.
  - by rewrite seed_rules_added.
  - by rewrite seed_rules_added.
Qed.

(** X17. [seed_data] never fails and is idempotent: it returns; without a
    store handle it does nothing; with one, it leaves both the service and
    the availability collection non-empty, keeps every document that was
    stored (the bookings untouched, the services and rules as a prefix of
    what it leaves), and a second run changes nothing. A store that has
    services and rules already is left as it is. *)
Theorem seed_data_idempotent db :
  exists db',
    seed_data db = Return db'
    /\ seed_data db' = Return db'
    /\ (db = None -> db' = None)
    /\ forall st,
         db = Some st ->
         exists st' more_services more_rules,
           db' = Some st'
           /\ service st' = service st ++ more_services
           /\ availability st' = availability st ++ more_rules
           /\ booking st' = booking st
           /\ service st' <> [] /\ availability st' <> []
           /\ (service st <> [] -> availability st <> [] -> st' = st).
Proof.
  destruct db as [st|]; [|by exists None].
  rewrite seed_data_Some. eexists. split; [done|].
  destruct st as [svcs rules bks n].
  destruct svcs as [|s0 ss]; destruct rules as [|r rs];
    (split; [by rewrite seed_data_Some|]); (split; [done|]);
    intros ? [= <-]; cbn.
  - by eexists _, _, _.
  - eexists _, _, []. rewrite app_nil_r. by split_and!.
  - eexists _, [], _. rewrite app_nil_r. by split_and!.
  - eexists _, [], []. rewrite !app_nil_r. by split_and!.
Qed.

Lemma seed_data_idempotent_witness :
  exists st' more_services more_rules,
    seed_data (Some (empty_store 1)) = Return (Some st')
    /\ seed_data (Some st') = Return (Some st')
    /\ service st' = service (empty_store 1) ++ more_services
    /\ availability st' = availability (empty_store 1) ++ more_rules
    /\ length more_services = 1%nat /\ length more_rules = 5%nat.
Proof.
  destruct (seed_data_idempotent (Some (empty_store 1)))
    as (db' & Hrun & Hagain & _ & Hkeeps).
  destruct (Hkeeps (empty_store 1) eq_refl)
    as (st' & more_services & more_rules & -> & Hs & Hr & _).
  exists st', more_services, more_rules.
  split; [exact Hrun|]. split; [exact Hagain|].
  split; [exact Hs|]. split; [exact Hr|].
  assert (Return (Some st')
          = Return (A:=option Store)
              (Some (mkStore
                       [seed_service (counter_bytes 12 1 [])]
                       (map (seed_rule
                               (ObjectId_str (counter_bytes 12 1 [])))
                          (range 5))
                       [] 7))) as Heq
    by (rewrite <- Hrun; reflexivity).
  injection Heq as ->. cbn in Hs, Hr. subst. split; reflexivity.
Defined.







(** ** The exceptions of a listing *)









(** ** [list_services] and [list_bookings] *)




Lemma filter_rev_comm {A : Type} (P : A -> bool) (l : list A) :
  List.filter P (rev l) = rev (List.filter P l).
Proof.
  induction l as [|x l IH]; [done|]. cbn [rev List.filter].
  rewrite List.filter_app, IH. cbn. destruct (P x); cbn; [done|].
  by rewrite app_nil_r.
Qed.

(** X22. [list_bookings] without a store handle answers 500. On a
    configured store, an empty [service_id] is no filter at all: it gives
    the listing a missing [service_id] gives, which holds every stored
    booking once. A [service_id] that is not empty gives that listing
    restricted to the bookings stored under this very text, in the same
    order. *)
Theorem list_bookings_filter st :
  (forall service_id,
     list_bookings None service_id
     = Raise (HTTPException 500 "Database not configured"))
  /\ exists all,
       list_bookings (Some st) None = Return all
       /\ list_bookings (Some st) (Some EmptyString) = Return all
       /\ Permutation all (booking st)
       /\ forall service_id,
            service_id <> EmptyString ->
            list_bookings (Some st) (Some service_id)
            = Return
                (List.filter
                   (fun d => bool_decide (Booking.service_id d.2 = service_id))
                   all).
Proof.
  split; [done|]. exists (rev (booking st)). split_and!; try done.
  - unfold sort_created_at_desc. symmetry. apply Permutation_rev.
  - intros service_id Hne. unfold list_bookings, sort_created_at_desc.
    destruct service_id as [|c rest]; [done|]. cbn [String.length Nat.eqb].
    by rewrite filter_rev_comm.
Qed.

Lemma list_bookings_filter_witness :
  list_bookings (Some morning_store) (Some "0123456789abcdef01234567"%string)
  = Return []
  /\ list_bookings (Some morning_store) (Some EmptyString)
     = Return [("000000000000000000000000"%string,
                sample_booking "09:00" "09:30" cancelled)].
Proof.
  destruct (list_bookings_filter morning_store)
    as (_ & all & Hall & Hempty & _ & Hfilter).
  assert (all = [("000000000000000000000000"%string,
                  sample_booking "09:00" "09:30" cancelled)]) as ->.
  { assert (Return all
            = Return (A:=list (string * Booking.t))
                [("000000000000000000000000"%string,
                  sample_booking "09:00" "09:30" cancelled)]) as Heq
      by (rewrite <- Hall; reflexivity).
    by injection Heq. }
  split; [|exact Hempty].
  rewrite (Hfilter "0123456789abcdef01234567"%string); [reflexivity|].
  discriminate.
Defined.

(** What a call of [create_booking] that returns has done. *)
Lemma create_booking_returns payload w c :
  (create_booking payload w).1 = Return c ->
  exists st oid svc,
    db w = Some st
    /\ ObjectId_of_str (Booking.service_id payload) = Some oid
    /\ service_by_id st oid = Some svc
    /\ db (create_booking payload w).2
       = Some (mkStore (service st) (availability st)
                 (booking st
                  ++ [(id c,
                       Booking.with_service_name (Service.name svc) payload)])
                 (next_id st + 1)).
Proof.
  destruct (db w) as [st|] eqn:Hdb.
  - destruct (ObjectId_of_str (Booking.service_id payload)) as [oid|] eqn:Hoid.
    + destruct (service_by_id st oid) as [svc|] eqn:Hsvc.
      * rewrite (create_booking_run payload w st oid svc Hdb Hoid Hsvc).
        destruct (conflict_of _ _ _ _ _); cbn; [done|].
        intros [= <-]. by exists st, oid, svc.
      * unfold create_booking, get_db, to_object_id, lift, find_one_service,
          query, raise, mbind, M_bind.
        rewrite Hdb, Hoid. cbn [db log]. by rewrite Hdb, Hsvc.
    + unfold create_booking, get_db, to_object_id, lift, raise, mbind, M_bind.
      by rewrite Hdb, Hoid.
  - unfold create_booking, get_db, raise, mbind, M_bind. by rewrite Hdb.
Qed.

(** X23. A booking that [create_booking] stored is listed, and first: when
    the call returns, [list_bookings] for the payload's [service_id], and
    [list_bookings] without a filter, give in the world it left the record
    stored (the payload with the service's name, under the identifier
    returned) followed by the listing of the world before. *)
Theorem created_booking_is_listed_first payload w c :
  (create_booking payload w).1 = Return c ->
  exists before all_before svc,
    list_bookings (db w) (Some (Booking.service_id payload)) = Return before
    /\ list_bookings (db w) None = Return all_before
    /\ list_bookings (db (create_booking payload w).2)
         (Some (Booking.service_id payload))
       = Return ((id c, Booking.with_service_name (Service.name svc) payload)
                 :: before)
    /\ list_bookings (db (create_booking payload w).2) None
       = Return ((id c, Booking.with_service_name (Service.name svc) payload)
                 :: all_before).
Proof.
  intros Hc.
  destruct (create_booking_returns payload w c Hc)
    as (st & oid & svc & Hdb & Hoid & Hsvc & Hafter).
  rewrite Hafter, Hdb.
  assert (Nat.eqb (String.length (Booking.service_id payload)) 0 = false)
    as Hlen.
  { unfold ObjectId_of_str in Hoid.
    destruct (Nat.eqb_spec (String.length (Booking.service_id payload)) 24)
      as [E|E]; [|done].
    by rewrite E. }
  eexists _, _, svc. unfold list_bookings, sort_created_at_desc.
  rewrite Hlen. cbn [booking]. split_and!; try done.
  - rewrite List.filter_app, rev_app_distr. cbn [List.filter snd].
    change (Booking.service_id
              (Booking.with_service_name (Service.name svc) payload))
      with (Booking.service_id payload).
    by rewrite bool_decide_true.
  - by rewrite rev_app_distr.
Qed.

Lemma created_booking_is_listed_first_witness :
  exists before all_before svc,
    list_bookings (db morning_world) (Some sample_id) = Return before
    /\ list_bookings (db morning_world) None = Return all_before
    /\ list_bookings
         (db (create_booking (sample_payload "09:30" "10:00")
                morning_world).2)
         (Some sample_id)
       = Return (("000000000000000000000001"%string,
                  Booking.with_service_name (Service.name svc)
                    (sample_payload "09:30" "10:00"))
                 :: before)
    /\ list_bookings
         (db (create_booking (sample_payload "09:30" "10:00")
                morning_world).2)
         None
       = Return (("000000000000000000000001"%string,
                  Booking.with_service_name (Service.name svc)
                    (sample_payload "09:30" "10:00"))
                 :: all_before).
Proof.
  exact (created_booking_is_listed_first (sample_payload "09:30" "10:00")
           morning_world (mkCreated "000000000000000000000001" "ok")
           eq_refl).
Defined.

(** ** Booking twice *)

(** X24. Sending the same payload again: after a call of
    [create_booking] that returned, a second call with the same payload in
    the world the first left is answered with 409, provided the payload's
    start is before its end. *)
Theorem resubmission_conflicts payload w c :
  (create_booking payload w).1 = Return c ->
  str_lt (Booking.start_time payload) (Booking.end_time payload) = true ->
  (create_booking payload (create_booking payload w).2).1
  = Raise (HTTPException 409 "Time slot already booked").
Proof.
  intros Hc Hlt.
  destruct (create_booking_returns payload w c Hc)
    as (st & oid & svc & Hdb & Hoid & Hsvc & Hafter).
  set (data := Booking.with_service_name (Service.name svc) payload) in *.
  set (st1 := mkStore _ _ _ _) in Hafter.
  rewrite (create_booking_run payload _ st1 oid svc Hafter Hoid Hsvc).
  destruct (conflict_of st1 _ _ _ _) as [b|] eqn:Hfree; [done|].
  exfalso. rewrite conflict_of_None in Hfree.
  specialize (Hfree data).
  rewrite intervals_overlap_self in Hfree by done.
  assert (true = false) as Habs; [|done].
  apply Hfree; [|done].
  apply bookings_of_In. split; [|done].
  unfold st1. cbn [booking]. rewrite map_app. apply in_or_app. right.
  by left.
Qed.

Lemma resubmission_conflicts_witness :
  (create_booking (sample_payload "09:30" "10:00")
     (create_booking (sample_payload "09:30" "10:00") morning_world).2).1
  = Raise (HTTPException 409 "Time slot already booked").
Proof.
  exact (resubmission_conflicts (sample_payload "09:30" "10:00") morning_world
           (mkCreated "000000000000000000000001" "ok") eq_refl eq_refl).
Defined.
